(** * Observability bootstrap: trace-aware logging and tracer-provider set-up

    A shallow embedding of the Go package [observability].  The package
    exists in two near-duplicate variants:

    - the variant that resolves the GCP project identifier once, at package
      initialisation, into the package variable [GCPProjectID] and that
      configures a sampler explicitly (module [Memoized]);
    - the older variant of [observability.go] that asks the metadata service
      for the project identifier on every use (module [Legacy]).

    Go values are modelled as follows.  A Go [error] is [option error] with
    [None] for [nil]; a pair of results [(v, err)] is a Rocq pair; the
    environment, the locals of a request and the fields of a log entry are
    finite maps with string keys; everything the package asks of the outside
    (environment variables, the metadata service, exporter and resource
    construction, provider shutdown) is a field of the record [World], and
    everything it mutates (the OpenTelemetry globals, the number of metadata
    look-ups made) is a field of the record [Process], threaded through a
    small state monad. *)

From Stdlib Require Import ZArith QArith Strings.Ascii Strings.String Strings.Byte.
From stdpp Require Import gmap strings list fin_maps.

Local Open Scope string_scope.
Local Open Scope list_scope.

(** ** Errors *)

(** The three shapes of error value the package builds or receives:
    [errors.New]/[fmt.Errorf] without [%w], [fmt.Errorf] with [%w], and
    [errors.Join]. *)
#[local] Set Warnings "-register-all".

Inductive error : Type :=
| errorString (s : string)
| wrapError (msg : string) (err : error)
| joinError (errs : list error).

Definition newline : string := String (Ascii.ascii_of_nat 10) "".

(** The method [Error()]. *)
Fixpoint Error (e : error) : string :=
  match e with
  | errorString s => s
  | wrapError msg _ => msg
  | joinError errs =>
      (fix lines (l : list error) : string :=
         match l with
         | [] => ""
         | x :: l' =>
             match l' with
             | [] => Error x
             | _ :: _ => Error x +:+ newline +:+ lines l'
             end
         end) errs
  end.

(** [fmt.Errorf(prefix + "%w", err)]. *)
Definition Errorf_w (prefix : string) (err : error) : error :=
  wrapError (prefix +:+ Error err) err.

(** The verb [%v] applied to a slice of errors: the messages between
    brackets, separated by one space. *)
Fixpoint spaced (l : list string) : string :=
  match l with
  | [] => ""
  | x :: l' =>
      match l' with
      | [] => x
      | _ :: _ => x +:+ " " +:+ spaced l'
      end
  end.

Definition Errorf_v (prefix : string) (errs : list error) : error :=
  errorString (prefix +:+ "[" +:+ spaced (Error <$> errs) +:+ "]").

(** [errors.Join]: nil arguments are dropped; the result is nil when
    nothing is left. *)
Definition Join (errs : list (option error)) : option error :=
  match omap id errs with
  | [] => None
  | e :: l => Some (joinError (e :: l))
  end.

(** [errors.Unwrap]: the error behind a [%w] wrapper; nil for the other two
    shapes (a join has the method [Unwrap() []error], which [errors.Unwrap]
    does not call). *)
Definition Unwrap (e : error) : option error :=
  match e with
  | wrapError _ err => Some err
  | errorString _ | joinError _ => None
  end.

(** ** Trace identifiers and span contexts (package [oteltrace]) *)

Definition hexDigit (n : N) : Ascii.ascii :=
  match String.get (N.to_nat n) "0123456789abcdef" with
  | Some c => c
  | None => "0"%char
  end.

Definition hexByte (b : Byte.byte) : string :=
  let n := Byte.to_N b in
  String (hexDigit (n / 16)) (String (hexDigit (n mod 16)) "").

(** [hex.EncodeToString]. *)
Fixpoint EncodeToString (bs : list Byte.byte) : string :=
  match bs with
  | [] => ""
  | b :: bs' => hexByte b +:+ EncodeToString bs'
  end.

#[global] Instance byte_eq_decision : EqDecision Byte.byte := Byte.byte_eq_dec.

(** [bytes.Equal]. *)
Definition bytesEqual (a b : list Byte.byte) : bool :=
  bool_decide (a = b).

Module TraceID.
(** [type TraceID [16]byte]. *)
Definition t := list Byte.byte.
Definition nilTraceID : t := replicate 16 Byte.x00.
Definition IsValid (id : t) : bool := negb (bytesEqual id nilTraceID).
Definition String (id : t) : string := EncodeToString id.
End TraceID.

Module SpanID.
(** [type SpanID [8]byte]. *)
Definition t := list Byte.byte.
Definition nilSpanID : t := replicate 8 Byte.x00.
Definition IsValid (id : t) : bool := negb (bytesEqual id nilSpanID).
Definition String (id : t) : string := EncodeToString id.
End SpanID.

Definition FlagsSampled : Z := 1.

Record SpanContext : Type := {
  traceID : TraceID.t;
  spanID : SpanID.t;
  traceFlags : Z;
  remote : bool
}.

(** The zero value [SpanContext{}], which the no-op span reports. *)
Definition emptySpanContext : SpanContext :=
  {| traceID := TraceID.nilTraceID; spanID := SpanID.nilSpanID;
     traceFlags := 0; remote := false |}.

Definition IsValid (sc : SpanContext) : bool :=
  TraceID.IsValid (traceID sc) && SpanID.IsValid (spanID sc).

Definition IsSampled (sc : SpanContext) : bool :=
  (Z.land (traceFlags sc) FlagsSampled =? FlagsSampled)%Z.

(** A [context.Context], as far as the package looks at it: the span it
    carries, if any. *)
Record Context : Type := { currentSpan : option SpanContext }.

Definition Background : Context := {| currentSpan := None |}.

(** [oteltrace.SpanFromContext(ctx).SpanContext()]: a context without a span
    yields the no-op span. *)
Definition SpanFromContext (ctx : Context) : SpanContext :=
  match currentSpan ctx with
  | Some sc => sc
  | None => emptySpanContext
  end.

(** ** Log entries (package [logrus]) *)

(** The values the package stores in [logrus.Fields]. *)
Inductive FieldValue : Type :=
| VString (s : string)
| VBool (b : bool).

(** Which logger an entry writes through: the package-level standard logger
    ([logrus.WithFields]) or one made by [logrus.New()]. *)
Inductive LoggerRef : Type :=
| StdLogger
| NewLogger.

Record Entry : Type := {
  Logger : LoggerRef;
  Data : gmap string FieldValue
}.

(** [logrus.NewEntry(logrus.New())]. *)
Definition NewEntry (l : LoggerRef) : Entry := {| Logger := l; Data := ∅ |}.

(** [logrus.WithFields(fields)]. *)
Definition WithFields (fields : gmap string FieldValue) : Entry :=
  {| Logger := StdLogger; Data := fields |}.

Definition traceField : string := "logging.googleapis.com/trace".
Definition spanIdField : string := "logging.googleapis.com/spanId".
Definition traceSampledField : string := "logging.googleapis.com/traceSampled".

(** ** Tracing pipeline (packages [sdk/trace], [sdk/resource], exporters) *)

Inductive Exporter : Type :=
| CloudTraceExporter (projectID : string)
| OTLPGrpcExporter.

Inductive ResourceOption : Type :=
| WithDetectors_gcp
| WithTelemetrySDK
| WithAttributes_ServiceName (serviceName : string).

Record Resource : Type := { options : list ResourceOption }.

Inductive Sampler : Type :=
| AlwaysSample
| NeverSample
| TraceIDRatioBased (fraction : Q)
| ParentBased (root : Sampler).

Record TracerProvider : Type := {
  batcher : Exporter;
  resource : Resource;
  sampler : Sampler
}.

Inductive Propagator : Type :=
| AutopropTextMapPropagator.

(** The sampling decision of a policy for a new span whose parent context is
    [parent] (the no-op span context for a root span).  The comparison of a
    trace identifier against a ratio is the SDK's own and is left as the
    parameter [ratioSamples]; the parent-based policy is the SDK's default
    configuration: a sampled parent is sampled, an unsampled one is not, a
    root span is left to the inner policy. *)
Fixpoint ShouldSample (ratioSamples : Q → TraceID.t → bool)
    (s : Sampler) (parent : SpanContext) (id : TraceID.t) : bool :=
  match s with
  | AlwaysSample => true
  | NeverSample => false
  | TraceIDRatioBased q => ratioSamples q id
  | ParentBased root =>
      if IsValid parent then IsSampled parent
      else ShouldSample ratioSamples root parent id
  end.

(** ** The outside world and the process state *)

(** What the environment answers.  [metadataProjectID] is the pair returned
    by [metadata.ProjectIDWithContext]; the constructors that can fail report
    their error, [None] meaning success.  [samplerFromEnv] is what the SDK
    makes of the values of [OTEL_TRACES_SAMPLER] and
    [OTEL_TRACES_SAMPLER_ARG] when the former is set, [None] when it
    supports no such sampler. *)
Record World : Type := {
  environ : gmap string string;
  metadataProjectID : string * option error;
  texporterNew : string → option error;
  resourceNew : list ResourceOption → option error;
  otlptracegrpcNew : option error;
  tracerProviderShutdown : TracerProvider → Context → option error;
  samplerFromEnv : option Sampler
}.

(** What the process mutates: the package variable [GCPProjectID] (only the
    memoized variant has it), the OpenTelemetry globals, and a count of the
    calls the package makes to [metadata.ProjectIDWithContext].  The count
    is of calls, not of network traffic: the metadata client may answer a
    repeated successful look-up from its cache, and what other libraries
    (such as the GCP resource detector) ask the metadata service on their
    own is not part of it. *)
Record Process : Type := {
  GCPProjectID : string;
  textMapPropagator : option Propagator;
  tracerProvider : option TracerProvider;
  metadataLookups : nat
}.

Definition M (A : Type) : Type := Process → A * Process.

#[global] Instance M_ret : MRet M := λ A a p, (a, p).

#[global] Instance M_bind : MBind M :=
  λ A B f m p, let '(a, p') := m p in f a p'.

(** [os.Getenv]: the empty string for an unset variable. *)
Definition Getenv (w : World) (key : string) : string :=
  default "" (environ w !! key).

(** The sampler of a provider built without [trace.WithSampler]: the one
    the SDK reads from the environment when [OTEL_TRACES_SAMPLER] is set and
    names a sampler it supports, and [ParentBased(AlwaysSample())]
    otherwise. *)
Definition defaultSampler (w : World) : Sampler :=
  match environ w !! "OTEL_TRACES_SAMPLER" with
  | None => ParentBased AlwaysSample
  | Some _ => default (ParentBased AlwaysSample) (samplerFromEnv w)
  end.

(** [metadata.ProjectIDWithContext]: the call is counted and answered with
    the world's pair. *)
Definition ProjectIDWithContext (w : World) (ctx : Context)
    : M (string * option error) :=
  λ p, (metadataProjectID w,
        {| GCPProjectID := GCPProjectID p;
           textMapPropagator := textMapPropagator p;
           tracerProvider := tracerProvider p;
           metadataLookups := S (metadataLookups p) |}).

(** Reading and writing the package variable [GCPProjectID]. *)
Definition loadGCPProjectID : M string := λ p, (GCPProjectID p, p).

Definition storeGCPProjectID (v : string) : M unit :=
  λ p, (tt,
        {| GCPProjectID := v;
           textMapPropagator := textMapPropagator p;
           tracerProvider := tracerProvider p;
           metadataLookups := metadataLookups p |}).

(** [otel.SetTextMapPropagator]. *)
Definition SetTextMapPropagator (pr : Propagator) : M unit :=
  λ p, (tt,
        {| GCPProjectID := GCPProjectID p;
           textMapPropagator := Some pr;
           tracerProvider := tracerProvider p;
           metadataLookups := metadataLookups p |}).

(** [otel.SetTracerProvider]. *)
Definition SetTracerProvider (tp : TracerProvider) : M unit :=
  λ p, (tt,
        {| GCPProjectID := GCPProjectID p;
           textMapPropagator := textMapPropagator p;
           tracerProvider := Some tp;
           metadataLookups := metadataLookups p |}).

(** ** Requests (package [fiber]) *)

(** A value kept in the locals of a request: a [*logrus.Entry], or a value
    of some other dynamic type. *)
Inductive Local : Type :=
| LEntry (e : Entry)
| LString (s : string)
| LBool (b : bool)
| LError (e : error).

Record Ctx : Type := {
  userContext : Context;
  locals : gmap string Local
}.

(** [c.UserContext()]. *)
Definition UserContext (c : Ctx) : Context := userContext c.

(** [c.Locals(key)]: nil (here [None]) when nothing was stored. *)
Definition Locals (c : Ctx) (key : string) : option Local := locals c !! key.

(** [c.Locals(key, value)]. *)
Definition SetLocals (c : Ctx) (key : string) (v : Local) : Ctx :=
  {| userContext := userContext c; locals := <[key := v]> (locals c) |}.

(** How a call into the package ends: it returns, or [logrus.Fatal] logs
    the error and leaves the process with [os.Exit(1)]. *)
Inductive Outcome (A : Type) : Type :=
| Returned (a : A)
| Fatal (logged : error) (code : Z).
Arguments Returned {A} a.
Arguments Fatal {A} logged code.

(** [SafeShutdown], identical in both variants. *)
Definition SafeShutdown (errs : list (option error)) : Outcome unit :=
  match Join errs with
  | Some err => Fatal err 1
  | None => Returned tt
  end.

(** [GetLogger], identical in both variants. *)
Definition GetLogger (c : Ctx) : Entry :=
  match Locals c "logger" with
  | Some (LEntry logger) => logger
  | _ => NewEntry NewLogger
  end.

(** The closure [shutdown] that [setupOpenTelemetry] returns, with the
    provider it captures as a parameter; identical in both variants. *)
Definition shutdown (w : World) (tp : TracerProvider) (ctx : Context)
    : option error :=
  let errs : list error := [] in
  let errs :=
    match tracerProviderShutdown w tp ctx with
    | Some err => errs ++ [err]
    | None => errs
    end in
  if (0 <? length errs)%nat
  then Some (Errorf_v "failed to shutdown: " errs)
  else None.

(** The middleware chain of the application that the entry point builds. *)
Inductive Middleware : Type :=
| fiberlogrus_New
| otelfiber_Middleware
| traceAwareLogrusLoggerMiddleware.

Record App : Type := { handlers : list Middleware }.

(** ** The variant with the memoized project identifier *)

Module Memoized.
Section WithWorld.
Variable w : World.

Definition getGcpProjectID : M string :=
  let projectID := "local" in
  if String.eqb (Getenv w "ENABLE_GCP_TRACING") "true"
  then '(projectID, _) ← ProjectIDWithContext w Background; mret projectID
  else mret projectID.

(** Package initialisation: [var GCPProjectID = getGcpProjectID()]. *)
Definition init : M unit :=
  projectID ← getGcpProjectID;
  storeGCPProjectID projectID.

Definition newTraceAwareLogrusLogger (ctx : Context) : M Entry :=
  let spanContext := SpanFromContext ctx in
  let logger := NewEntry NewLogger in
  if IsValid spanContext then
    projectID ← loadGCPProjectID;
    let traceId :=
      "projects/" +:+ projectID +:+ "/traces/"
        +:+ TraceID.String (traceID spanContext) in
    mret (WithFields
            (<[traceField := VString traceId]>
               (<[spanIdField := VString (SpanID.String (spanID spanContext))]>
                  (<[traceSampledField := VBool (IsSampled spanContext)]> ∅))))
  else mret logger.

(** The handler [newTraceAwareLogrusLoggerMiddleware()] returns; [next] is
    the rest of the chain, entered by [c.Next()]. *)
Definition newTraceAwareLogrusLoggerMiddleware
    (c : Ctx) (next : Ctx → M (option error)) : M (option error) :=
  logger ← newTraceAwareLogrusLogger (UserContext c);
  next (SetLocals c "logger" (LEntry logger)).

Definition setupOpenTelemetry (ctx : Context) (serviceName : string)
    : M (option (Context → option error) * option error) :=
  let install (tracerProvider : TracerProvider) :=
    SetTextMapPropagator AutopropTextMapPropagator;;
    SetTracerProvider tracerProvider;;
    mret (Some (shutdown w tracerProvider), None) in
  if String.eqb (Getenv w "ENABLE_GCP_TRACING") "true" then
    projectID ← loadGCPProjectID;
    match texporterNew w projectID with
    | Some err =>
        mret (None, Some (Errorf_w "failed to create resource: " err))
    | None =>
        let opts := [WithDetectors_gcp; WithTelemetrySDK;
                     WithAttributes_ServiceName serviceName] in
        match resourceNew w opts with
        | Some err =>
            mret (None, Some (Errorf_w "failed to create resource: " err))
        | None =>
            install
              {| batcher := CloudTraceExporter projectID;
                 resource := {| options := opts |};
                 sampler := ParentBased (TraceIDRatioBased 0.01%Q) |}
        end
    end
  else
    let opts := [WithAttributes_ServiceName serviceName] in
    match resourceNew w opts with
    | Some err =>
        mret (None, Some (Errorf_w "failed to create resource: " err))
    | None =>
        match otlptracegrpcNew w with
        | Some err =>
            mret (None,
                  Some (Errorf_w "failed to create trace exporter: " err))
        | None =>
            install
              {| batcher := OTLPGrpcExporter;
                 resource := {| options := opts |};
                 sampler := AlwaysSample |}
        end
    end.

Definition NewLogrusAndTraceAwareFiberApp
    (ctx : Context) (serviceName : string)
    : M (Outcome (App * option (Context → option error))) :=
  let app :=
    {| handlers := [fiberlogrus_New; otelfiber_Middleware;
                    traceAwareLogrusLoggerMiddleware] |} in
  '(shutdown, err) ← setupOpenTelemetry ctx serviceName;
  match err with
  | Some err => mret (Fatal err 1)
  | None => mret (Returned (app, shutdown))
  end.
End WithWorld.
End Memoized.

(** ** The variant of [observability.go] *)

Module Legacy.
Section WithWorld.
Variable w : World.

Definition getGcpProjectID (ctx : Context) : M string :=
  '(projectID, err) ← ProjectIDWithContext w ctx;
  match err with
  | Some _ => mret ""
  | None => mret projectID
  end.

Definition newTraceAwareLogrusLogger (ctx : Context) : M Entry :=
  let spanContext := SpanFromContext ctx in
  let logger := NewEntry NewLogger in
  if IsValid spanContext then
    projectID ← getGcpProjectID ctx;
    let traceId :=
      "projects/" +:+ projectID +:+ "/traces/"
        +:+ TraceID.String (traceID spanContext) in
    mret (WithFields
            (<[traceField := VString traceId]>
               (<[spanIdField := VString (SpanID.String (spanID spanContext))]>
                  (<[traceSampledField := VBool (IsSampled spanContext)]> ∅))))
  else mret logger.

Definition newTraceAwareLogrusLoggerMiddleware
    (c : Ctx) (next : Ctx → M (option error)) : M (option error) :=
  logger ← newTraceAwareLogrusLogger (UserContext c);
  next (SetLocals c "logger" (LEntry logger)).

Definition setupOpenTelemetry (ctx : Context) (serviceName : string)
    : M (option (Context → option error) * option error) :=
  let install (traceExporter : Exporter) (res : Resource) :=
    SetTextMapPropagator AutopropTextMapPropagator;;
    let tracerProvider :=
      {| batcher := traceExporter; resource := res;
         sampler := defaultSampler w |} in
    SetTracerProvider tracerProvider;;
    mret (Some (shutdown w tracerProvider), None) in
  if String.eqb (Getenv w "ENABLE_GCP_TRACING") "true" then
    projectID ← getGcpProjectID ctx;
    match texporterNew w projectID with
    | Some err =>
        mret (None, Some (Errorf_w "failed to create resource: " err))
    | None =>
        let opts := [WithDetectors_gcp; WithTelemetrySDK;
                     WithAttributes_ServiceName serviceName] in
        match resourceNew w opts with
        | Some err =>
            mret (None, Some (Errorf_w "failed to create resource: " err))
        | None => install (CloudTraceExporter projectID) {| options := opts |}
        end
    end
  else
    let opts := [WithAttributes_ServiceName serviceName] in
    match resourceNew w opts with
    | Some err =>
        mret (None, Some (Errorf_w "failed to create resource: " err))
    | None =>
        match otlptracegrpcNew w with
        | Some err =>
            mret (None,
                  Some (Errorf_w "failed to create trace exporter: " err))
        | None => install OTLPGrpcExporter {| options := opts |}
        end
    end.

Definition NewLogrusAndTraceAwareFiberApp
    (ctx : Context) (serviceName : string)
    : M (Outcome (App * option (Context → option error))) :=
  let app :=
    {| handlers := [fiberlogrus_New; otelfiber_Middleware;
                    traceAwareLogrusLoggerMiddleware] |} in
  '(shutdown, err) ← setupOpenTelemetry ctx serviceName;
  match err with
  | Some err => mret (Fatal err 1)
  | None => mret (Returned (app, shutdown))
  end.
End WithWorld.
End Legacy.

(** ** Problem details ([detail.go]) *)

Record ProblemDetail : Type := {
  Type_ : string;
  Title : string;
  Detail : string;
  Status : Z
}.

(** A JSON document, as far as [ProblemDetail] needs it. *)
Inductive JSON : Type :=
| JString (s : string)
| JNumber (n : Z)
| JObject (members : list (string * JSON)).

(** The document [json.Marshal] produces for a [ProblemDetail]: the fields
    in declaration order under the names of their [json] tags. *)
Definition Marshal (d : ProblemDetail) : JSON :=
  JObject [("type", JString (Type_ d)); ("title", JString (Title d));
           ("detail", JString (Detail d)); ("status", JNumber (Status d))].

(** The response a request is building.  [statusCode] is the code as
    stored, 0 as long as none was set. *)
Record Response : Type := {
  statusCode : Z;
  header : gmap string string;
  body : option JSON
}.

Definition StatusOK : Z := 200.

(** [Response.StatusCode()]: a response whose stored code is 0 reports
    200. *)
Definition StatusCode (r : Response) : Z :=
  if (statusCode r =? 0)%Z then StatusOK else statusCode r.

(** The code of the status line the server writes: the reported code, with
    200 in place of a negative one. *)
Definition statusLineCode (r : Response) : Z :=
  if (StatusCode r <? 0)%Z then StatusOK else StatusCode r.

Definition HeaderContentType : string := "Content-Type".
Definition MIMEApplicationJSON : string := "application/json".

(** [c.Set(key, val)]. *)
Definition Set_ (r : Response) (key val : string) : Response :=
  {| statusCode := statusCode r; header := <[key := val]> (header r);
     body := body r |}.

(** [c.Status(status)]: the code is stored as given. *)
Definition SetStatus (r : Response) (status : Z) : Response :=
  {| statusCode := status; header := header r; body := body r |}.

(** [c.JSON(data)]: the encoded document becomes the body and the content
    type is set to [application/json]; encoding a [ProblemDetail] cannot
    fail, so the error is nil. *)
Definition SendJSON (r : Response) (d : ProblemDetail)
    : Response * option error :=
  ({| statusCode := statusCode r;
      header := <[HeaderContentType := MIMEApplicationJSON]> (header r);
      body := Some (Marshal d) |},
   None).

Definition NewProblemDetail (r : Response) (d : ProblemDetail)
    : Response * option error :=
  let r := Set_ r HeaderContentType "application/problem+json" in
  SendJSON (SetStatus r (Status d)) d.

(** ** Definitions used to state the properties, and sample inputs *)

(** The fields the factories attach for a valid span, given the project
    identifier. *)
Definition traceFields (projectID : string) (sc : SpanContext)
    : gmap string FieldValue :=
  <[traceField :=
      VString ("projects/" +:+ projectID +:+ "/traces/"
                 +:+ TraceID.String (traceID sc))]>
    (<[spanIdField := VString (SpanID.String (spanID sc))]>
       (<[traceSampledField := VBool (IsSampled sc)]> ∅)).

(** The sampler selection as the specification words it: a two-way switch
    on whether the deployment is a cloud one. *)
Definition selectSampler_spec (cloud : bool) : Sampler :=
  if cloud then ParentBased (TraceIDRatioBased (1 # 100)%Q) else AlwaysSample.

(** The cloud-tracing flag: the test
    [os.Getenv("ENABLE_GCP_TRACING") == "true"] that both [getGcpProjectID]
    and [setupOpenTelemetry] make. *)
Definition gcpTracingEnabled (w : World) : bool :=
  String.eqb (Getenv w "ENABLE_GCP_TRACING") "true".

(** [isCloud] of the deployment context as the specification words it: true
    when the flag is set and the metadata call succeeds, false otherwise,
    also when the flag is set but the metadata call fails. *)
Definition isCloud_spec (w : World) : bool :=
  gcpTracingEnabled w
  && match (metadataProjectID w).2 with
     | None => true
     | Some _ => false
     end.

(** The construction steps the older bootstrap attempts; its cloud exporter
    is built for the identifier [getGcpProjectID(ctx)] returns. *)
Definition legacyConstructionSteps (w : World) (serviceName : string)
    : list (option error) :=
  if gcpTracingEnabled w
  then [texporterNew w match (metadataProjectID w).2 with
                       | Some _ => ""
                       | None => (metadataProjectID w).1
                       end;
        resourceNew w [WithDetectors_gcp; WithTelemetrySDK;
                       WithAttributes_ServiceName serviceName]]
  else [resourceNew w [WithAttributes_ServiceName serviceName];
        otlptracegrpcNew w].

(** The construction steps a bootstrap attempts, in order, with the error
    each one reports: the cloud branch builds the exporter and then the
    resource, the local branch the resource and then the exporter. *)
Definition constructionSteps (w : World) (p : Process) (serviceName : string)
    : list (option error) :=
  if gcpTracingEnabled w
  then [texporterNew w (GCPProjectID p);
        resourceNew w [WithDetectors_gcp; WithTelemetrySDK;
                       WithAttributes_ServiceName serviceName]]
  else [resourceNew w [WithAttributes_ServiceName serviceName];
        otlptracegrpcNew w].

Definition sampleTraceID : TraceID.t :=
  [Byte.x4b; Byte.xf9; Byte.x2f; Byte.x35; Byte.x77; Byte.xb3; Byte.x4d;
   Byte.xa6; Byte.xa3; Byte.xce; Byte.x92; Byte.x9d; Byte.x0e; Byte.x0e;
   Byte.x47; Byte.x36].

Definition sampleSpanID : SpanID.t :=
  [Byte.x00; Byte.xf0; Byte.x67; Byte.xaa; Byte.x0b; Byte.xa9; Byte.x02;
   Byte.xb7].

Definition sampledSpan : SpanContext :=
  {| traceID := sampleTraceID; spanID := sampleSpanID;
     traceFlags := 1; remote := false |}.

Definition tracedContext : Context := {| currentSpan := Some sampledSpan |}.

(** The error of the first step that fails, if one does. *)
Definition firstFailure (steps : list (option error)) : option error :=
  head (omap id steps).

(** The process state after a successful [setupOpenTelemetry] that built
    the provider [tp]. *)
Definition installed (p : Process) (tp : TracerProvider) : Process :=
  {| GCPProjectID := GCPProjectID p;
     textMapPropagator := Some AutopropTextMapPropagator;
     tracerProvider := Some tp;
     metadataLookups := metadataLookups p |}.

(** A valid remote parent that was not sampled. *)
Definition unsampledParent : SpanContext :=
  {| traceID := sampleTraceID; spanID := sampleSpanID;
     traceFlags := 0; remote := true |}.

(** The process before package initialisation. *)
Definition freshProcess : Process :=
  {| GCPProjectID := ""; textMapPropagator := None; tracerProvider := None;
     metadataLookups := 0 |}.

Definition unreachable : error := errorString "metadata: not on GCE".

(** A world in which every constructor and the shutdown succeed, with the
    given environment and answer of the metadata service. *)
Definition quietWorld (env : gmap string string)
    (answer : string * option error) : World :=
  {| environ := env;
     metadataProjectID := answer;
     texporterNew := λ _, None;
     resourceNew := λ _, None;
     otlptracegrpcNew := None;
     tracerProviderShutdown := λ _ _, None;
     samplerFromEnv := None |}.

(** A developer machine: no variable set, no metadata service. *)
Definition localWorld : World := quietWorld ∅ ("", Some unreachable).

(** A cloud deployment of project [my-project]. *)
Definition cloudWorld : World :=
  quietWorld {[ "ENABLE_GCP_TRACING" := "true" ]} ("my-project", None).

(** Cloud tracing switched on where no metadata service answers. *)
Definition flaggedWorld : World :=
  quietWorld {[ "ENABLE_GCP_TRACING" := "true" ]} ("", Some unreachable).

(** A cloud machine with the flag spelled in capitals. *)
Definition shoutedWorld : World :=
  quietWorld {[ "ENABLE_GCP_TRACING" := "TRUE" ]} ("my-project", None).

(** A developer machine where the OTLP exporter cannot be built. *)
Definition brokenWorld : World :=
  {| environ := ∅;
     metadataProjectID := ("", Some unreachable);
     texporterNew := λ _, None;
     resourceNew := λ _, None;
     otlptracegrpcNew := Some (errorString "no endpoint");
     tracerProviderShutdown := λ _ _, None;
     samplerFromEnv := None |}.

(** A developer machine whose provider fails to flush at shutdown. *)
Definition stuckWorld : World :=
  {| environ := ∅;
     metadataProjectID := ("", Some unreachable);
     texporterNew := λ _, None;
     resourceNew := λ _, None;
     otlptracegrpcNew := None;
     tracerProviderShutdown :=
       λ _ _, Some (errorString "context deadline exceeded");
     samplerFromEnv := None |}.

Definition localProvider : TracerProvider :=
  {| batcher := OTLPGrpcExporter;
     resource := {| options := [WithAttributes_ServiceName "svc"] |};
     sampler := AlwaysSample |}.

(** * Properties *)

(** ** Auxiliary facts *)

Ltac run_state :=
  unfold mbind, M_bind, mret, M_ret, loadGCPProjectID, storeGCPProjectID,
    ProjectIDWithContext, SetTextMapPropagator, SetTracerProvider; simpl.

Lemma eqb_true_iff (a b : string) : String.eqb a b = true ↔ a = b.
Proof. apply String.eqb_eq. Qed.

Lemma eqb_false_iff (a b : string) : String.eqb a b = false ↔ a ≠ b.
Proof. apply String.eqb_neq. Qed.

Lemma append_length (a b : string) :
  String.length (a +:+ b) = (String.length a + String.length b)%nat.
Proof. induction a as [|c a IH]; simpl; [done | by rewrite IH]. Qed.

(** Two strings of one length that agree after the same suffix is appended
    agree. *)
Lemma append_cancel_same_length (a b s : string) :
  String.length a = String.length b → a +:+ s = b +:+ s → a = b.
Proof.
  revert b. induction a as [|c a IH]; intros [|d b]; simpl; try done.
  intros Hlen Heq. injection Hlen as Hlen. injection Heq as -> Heq.
  f_equal. by apply IH.
Qed.

Lemma append_cancel_r (a b s : string) : a +:+ s = b +:+ s → a = b.
Proof.
  intros Heq. apply (append_cancel_same_length a b s); [| done].
  apply (f_equal String.length) in Heq. rewrite !append_length in Heq. lia.
Qed.

(** The three trace fields are pairwise distinct keys. *)
Lemma trace_fields_distinct :
  traceField ≠ spanIdField ∧ traceField ≠ traceSampledField
  ∧ spanIdField ≠ traceSampledField.
Proof. by repeat split. Qed.

Lemma traceFields_trace projectID sc :
  traceFields projectID sc !! traceField
  = Some (VString ("projects/" +:+ projectID +:+ "/traces/"
                     +:+ TraceID.String (traceID sc))).
Proof. unfold traceFields. by rewrite lookup_insert_eq. Qed.

Lemma traceFields_spanId projectID sc :
  traceFields projectID sc !! spanIdField
  = Some (VString (SpanID.String (spanID sc))).
Proof.
  unfold traceFields.
  rewrite lookup_insert_ne by done. by rewrite lookup_insert_eq.
Qed.

Lemma traceFields_traceSampled projectID sc :
  traceFields projectID sc !! traceSampledField = Some (VBool (IsSampled sc)).
Proof.
  unfold traceFields.
  rewrite !lookup_insert_ne by done. by rewrite lookup_insert_eq.
Qed.

Lemma traceFields_other projectID sc (k : string) :
  k ≠ traceField → k ≠ spanIdField → k ≠ traceSampledField →
  traceFields projectID sc !! k = None.
Proof.
  intros H1 H2 H3. unfold traceFields.
  rewrite !lookup_insert_ne by done. apply lookup_empty.
Qed.

Lemma Memoized_logger_valid ctx p :
  IsValid (SpanFromContext ctx) = true →
  Memoized.newTraceAwareLogrusLogger ctx p
  = (WithFields (traceFields (GCPProjectID p) (SpanFromContext ctx)), p).
Proof.
  intros Hv. unfold Memoized.newTraceAwareLogrusLogger. by rewrite Hv.
Qed.

Lemma Memoized_logger_invalid ctx p :
  IsValid (SpanFromContext ctx) = false →
  Memoized.newTraceAwareLogrusLogger ctx p = (NewEntry NewLogger, p).
Proof.
  intros Hv. unfold Memoized.newTraceAwareLogrusLogger. by rewrite Hv.
Qed.

Lemma Legacy_getGcpProjectID_eq w ctx p :
  (Legacy.getGcpProjectID w ctx p).1
  = match (metadataProjectID w).2 with
    | Some _ => ""
    | None => (metadataProjectID w).1
    end.
Proof.
  unfold Legacy.getGcpProjectID. run_state.
  destruct (metadataProjectID w) as [v [e|]]; done.
Qed.

Lemma Legacy_logger_valid w ctx p :
  IsValid (SpanFromContext ctx) = true →
  (Legacy.newTraceAwareLogrusLogger w ctx p).1
  = WithFields (traceFields (Legacy.getGcpProjectID w ctx p).1
                  (SpanFromContext ctx)).
Proof.
  intros Hv. unfold Legacy.newTraceAwareLogrusLogger. rewrite Hv.
  unfold Legacy.getGcpProjectID. run_state.
  destruct (metadataProjectID w) as [v [e|]]; done.
Qed.

Lemma Legacy_logger_invalid w ctx p :
  IsValid (SpanFromContext ctx) = false →
  Legacy.newTraceAwareLogrusLogger w ctx p = (NewEntry NewLogger, p).
Proof.
  intros Hv. unfold Legacy.newTraceAwareLogrusLogger. by rewrite Hv.
Qed.

(** ** The trace-aware logger factory *)

(** C1.  For a context that carries a valid, sampled span, the logger built
    under the memoized project identifier [GCPProjectID p] has the trace
    field ["projects/" + GCPProjectID + "/traces/" + traceID], the span-id
    field equal to the span identifier in hexadecimal, and the sampled field
    [true], under the three [logging.googleapis.com/...] names; it carries no
    other field and the process state is left as it was. *)
Theorem newTraceAwareLogrusLogger_sampled_span
    (ctx : Context) (sc : SpanContext) (p : Process) :
  currentSpan ctx = Some sc →
  IsValid sc = true →
  IsSampled sc = true →
  let logger := (Memoized.newTraceAwareLogrusLogger ctx p).1 in
  Data logger !! "logging.googleapis.com/trace"
    = Some (VString ("projects/" +:+ GCPProjectID p +:+ "/traces/"
                       +:+ TraceID.String (traceID sc)))
  ∧ Data logger !! "logging.googleapis.com/spanId"
    = Some (VString (SpanID.String (spanID sc)))
  ∧ Data logger !! "logging.googleapis.com/traceSampled" = Some (VBool true)
  ∧ dom (Data logger)
    = {[ "logging.googleapis.com/trace"; "logging.googleapis.com/spanId";
         "logging.googleapis.com/traceSampled" ]}
  ∧ (Memoized.newTraceAwareLogrusLogger ctx p).2 = p.
Proof.
  intros Hspan Hvalid Hsampled logger. subst logger.
  assert (Hsc : SpanFromContext ctx = sc)
    by (unfold SpanFromContext; by rewrite Hspan).
  rewrite Memoized_logger_valid by (by rewrite Hsc).
  rewrite Hsc. simpl.
  split; [apply traceFields_trace |].
  split; [apply traceFields_spanId |].
  split; [fold traceSampledField; by rewrite traceFields_traceSampled, Hsampled |].
  split; [| done].
  unfold traceFields. rewrite !dom_insert_L, dom_empty_L.
  unfold traceField, spanIdField, traceSampledField. set_solver.
Qed.

Lemma newTraceAwareLogrusLogger_sampled_span_witness :
  let logger :=
    (Memoized.newTraceAwareLogrusLogger tracedContext
       (Memoized.init localWorld freshProcess).2).1 in
  Data logger !! "logging.googleapis.com/trace"
    = Some (VString "projects/local/traces/4bf92f3577b34da6a3ce929d0e0e4736")
  ∧ Data logger !! "logging.googleapis.com/spanId"
    = Some (VString "00f067aa0ba902b7")
  ∧ Data logger !! "logging.googleapis.com/traceSampled" = Some (VBool true).
Proof.
  destruct (newTraceAwareLogrusLogger_sampled_span tracedContext sampledSpan
              (Memoized.init localWorld freshProcess).2)
    as (Ht & Hs & Hb & _); [reflexivity | reflexivity | reflexivity |].
  exact (conj Ht (conj Hs Hb)).
Defined.

(** C3.  For a context that carries no valid span, the logger built by the
    factory has none of the three trace fields; it is the plain entry of a
    new logger, with no field at all. *)
Theorem newTraceAwareLogrusLogger_no_valid_span (ctx : Context) (p : Process) :
  IsValid (SpanFromContext ctx) = false →
  let logger := (Memoized.newTraceAwareLogrusLogger ctx p).1 in
  Data logger !! "logging.googleapis.com/trace" = None
  ∧ Data logger !! "logging.googleapis.com/spanId" = None
  ∧ Data logger !! "logging.googleapis.com/traceSampled" = None
  ∧ logger = NewEntry NewLogger.
Proof.
  intros Hinvalid logger. subst logger.
  rewrite Memoized_logger_invalid by done. simpl.
  by rewrite !lookup_empty.
Qed.

Lemma newTraceAwareLogrusLogger_no_valid_span_witness :
  let logger := (Memoized.newTraceAwareLogrusLogger Background freshProcess).1 in
  Data logger !! "logging.googleapis.com/trace" = None
  ∧ Data logger !! "logging.googleapis.com/spanId" = None
  ∧ Data logger !! "logging.googleapis.com/traceSampled" = None
  ∧ logger = NewEntry NewLogger.
Proof.
  apply (newTraceAwareLogrusLogger_no_valid_span Background freshProcess).
  reflexivity.
Defined.

(** ** Attaching and retrieving the logger of a request *)

(** After the middleware has run, the rest of the chain sees the logger of
    the request's user context under the key ["logger"]. *)
Lemma middleware_attaches_logger (c : Ctx) (p : Process)
    (next : Ctx → M (option error)) :
  Memoized.newTraceAwareLogrusLoggerMiddleware c next p
  = next (SetLocals c "logger"
            (LEntry (Memoized.newTraceAwareLogrusLogger (UserContext c) p).1))
         p.
Proof.
  unfold Memoized.newTraceAwareLogrusLoggerMiddleware. run_state.
  destruct (IsValid (SpanFromContext (UserContext c))) eqn:Hv.
  - by rewrite Memoized_logger_valid.
  - by rewrite Memoized_logger_invalid.
Qed.

(** C6.  [GetLogger] is a total function of the request.  It returns the
    stored value when the slot ["logger"] holds a log entry; in every other
    case (nothing stored, or a value of another type) it returns the plain
    entry of a new logger, which has no field and so none of the three trace
    fields.  In particular it returns the attached logger downstream of the
    middleware. *)
Theorem GetLogger_total (c : Ctx) :
  (∀ logger, Locals c "logger" = Some (LEntry logger) → GetLogger c = logger)
  ∧ ((∀ logger, Locals c "logger" ≠ Some (LEntry logger)) →
     GetLogger c = NewEntry NewLogger
     ∧ Data (GetLogger c) = ∅
     ∧ Data (GetLogger c) !! "logging.googleapis.com/trace" = None
     ∧ Data (GetLogger c) !! "logging.googleapis.com/spanId" = None
     ∧ Data (GetLogger c) !! "logging.googleapis.com/traceSampled" = None)
  ∧ (∀ v, GetLogger (SetLocals c "logger" (LEntry v)) = v).
Proof.
  split; [| split].
  - intros logger Hl. unfold GetLogger. by rewrite Hl.
  - intros Hno. unfold GetLogger.
    destruct (Locals c "logger") as [[e| | |]|] eqn:Hl;
      try (by rewrite ?lookup_empty).
    by destruct (Hno e).
  - intros v. unfold GetLogger, Locals, SetLocals. simpl.
    by rewrite lookup_insert_eq.
Qed.

Lemma GetLogger_total_witness :
  GetLogger {| userContext := tracedContext;
               locals := {[ "logger" := LEntry (WithFields ∅) ]} |}
    = WithFields ∅
  ∧ GetLogger {| userContext := tracedContext; locals := ∅ |}
    = NewEntry NewLogger
  ∧ GetLogger {| userContext := tracedContext;
                 locals := {[ "logger" := LString "not a logger" ]} |}
    = NewEntry NewLogger.
Proof.
  split; [| split].
  - apply (GetLogger_total
             {| userContext := tracedContext;
                locals := {[ "logger" := LEntry (WithFields ∅) ]} |}).
    reflexivity.
  - apply (GetLogger_total {| userContext := tracedContext; locals := ∅ |}).
    intros logger. unfold Locals. simpl. by rewrite lookup_empty.
  - apply (GetLogger_total
             {| userContext := tracedContext;
                locals := {[ "logger" := LString "not a logger" ]} |}).
    intros logger. unfold Locals. simpl. by rewrite lookup_singleton_eq.
Defined.

(** ** The environment resolver *)

Lemma gcpTracingEnabled_true (w : World) :
  gcpTracingEnabled w = true ↔ Getenv w "ENABLE_GCP_TRACING" = "true".
Proof. apply eqb_true_iff. Qed.

Lemma gcpTracingEnabled_false (w : World) :
  gcpTracingEnabled w = false ↔ Getenv w "ENABLE_GCP_TRACING" ≠ "true".
Proof. apply eqb_false_iff. Qed.

Lemma getGcpProjectID_disabled (w : World) (p : Process) :
  gcpTracingEnabled w = false → Memoized.getGcpProjectID w p = ("local", p).
Proof.
  unfold gcpTracingEnabled, Memoized.getGcpProjectID. by intros ->.
Qed.

Lemma getGcpProjectID_enabled (w : World) (p : Process) :
  gcpTracingEnabled w = true →
  Memoized.getGcpProjectID w p
  = ((metadataProjectID w).1,
     {| GCPProjectID := GCPProjectID p;
        textMapPropagator := textMapPropagator p;
        tracerProvider := tracerProvider p;
        metadataLookups := S (metadataLookups p) |}).
Proof.
  unfold gcpTracingEnabled, Memoized.getGcpProjectID. intros ->. run_state.
  by destruct (metadataProjectID w).
Qed.

(** ** Bootstrap *)

(** Every run of the memoized bootstrap ends in one of two ways: a step
    failed, the wrapped error comes back alone and the process state is as
    before; or no step failed and the provider of the branch is installed. *)
Lemma Memoized_setup_outcome (w : World) (ctx : Context) (name : string)
    (p : Process) :
  (∃ err msg,
      Some err ∈ constructionSteps w p name
      ∧ Memoized.setupOpenTelemetry w ctx name p
        = ((None, Some (wrapError msg err)), p))
  ∨ (Forall (λ step, step = None) (constructionSteps w p name)
     ∧ ∃ tp,
         Memoized.setupOpenTelemetry w ctx name p
         = ((Some (shutdown w tp), None), installed p tp)
         ∧ batcher tp
           = (if gcpTracingEnabled w then CloudTraceExporter (GCPProjectID p)
              else OTLPGrpcExporter)
         ∧ options (resource tp)
           = (if gcpTracingEnabled w
              then [WithDetectors_gcp; WithTelemetrySDK;
                    WithAttributes_ServiceName name]
              else [WithAttributes_ServiceName name])
         ∧ sampler tp = selectSampler_spec (gcpTracingEnabled w)).
Proof.
  unfold Memoized.setupOpenTelemetry, constructionSteps, gcpTracingEnabled.
  destruct (String.eqb (Getenv w "ENABLE_GCP_TRACING") "true"); run_state.
  - destruct (texporterNew w (GCPProjectID p)) as [e1|] eqn:H1.
    { left. exists e1, ("failed to create resource: " +:+ Error e1).
      split; [set_solver | done]. }
    destruct (resourceNew w _) as [e2|] eqn:H2.
    { left. exists e2, ("failed to create resource: " +:+ Error e2).
      split; [set_solver | done]. }
    right. split; [by repeat constructor |].
    eexists. split; [reflexivity |]. by repeat split.
  - destruct (resourceNew w _) as [e1|] eqn:H1.
    { left. exists e1, ("failed to create resource: " +:+ Error e1).
      split; [set_solver | done]. }
    destruct (otlptracegrpcNew w) as [e2|] eqn:H2.
    { left. exists e2, ("failed to create trace exporter: " +:+ Error e2).
      split; [set_solver | done]. }
    right. split; [by repeat constructor |].
    eexists. split; [reflexivity |]. by repeat split.
Qed.

(** With the flag off, the older bootstrap also builds the OTLP pipeline,
    without a request to the metadata service. *)
Lemma Legacy_setup_disabled (w : World) (ctx : Context) (name : string)
    (p : Process) :
  gcpTracingEnabled w = false →
  (∃ err, Legacy.setupOpenTelemetry w ctx name p = ((None, Some err), p))
  ∨ (∃ tp,
        Legacy.setupOpenTelemetry w ctx name p
        = ((Some (shutdown w tp), None), installed p tp)
        ∧ batcher tp = OTLPGrpcExporter
        ∧ options (resource tp) = [WithAttributes_ServiceName name]).
Proof.
  unfold gcpTracingEnabled, Legacy.setupOpenTelemetry. intros ->.
  destruct (resourceNew w _) as [e1|]; [left; by eexists |].
  destruct (otlptracegrpcNew w) as [e2|]; [left; by eexists |].
  right. eexists. by repeat split.
Qed.

(** C2 (the code departs from the claim).  With [ENABLE_GCP_TRACING=true]
    and a metadata service that does not answer, the resolver returns no
    error, but the identifier it yields is the string that came back with
    the failed look-up, here the empty string, and not ["local"]: the trace
    path of a log entry then reads ["projects//traces/..."]. *)
Theorem getGcpProjectID_lookup_failure_not_local :
  (Memoized.getGcpProjectID flaggedWorld freshProcess).1 = ""
  ∧ (Memoized.getGcpProjectID flaggedWorld freshProcess).1 ≠ "local"
  ∧ GCPProjectID (Memoized.init flaggedWorld freshProcess).2 = ""
  ∧ Data (Memoized.newTraceAwareLogrusLogger tracedContext
            (Memoized.init flaggedWorld freshProcess).2).1
      !! "logging.googleapis.com/trace"
    = Some (VString "projects//traces/4bf92f3577b34da6a3ce929d0e0e4736").
Proof. by repeat split. Qed.

(** C4.  With the cloud-tracing flag off, whatever else the environment
    holds: the resolver yields ["local"] and leaves the process untouched,
    so no request goes to the metadata service; package initialisation
    stores ["local"]; and the bootstrap takes the non-cloud branch, again
    without a metadata request, installing (when nothing fails) the OTLP
    exporter with a resource that has no cloud detector. *)
Theorem flag_off_resolves_local (w : World) (ctx : Context) (name : string)
    (p : Process) :
  gcpTracingEnabled w = false →
  Memoized.getGcpProjectID w p = ("local", p)
  ∧ GCPProjectID (Memoized.init w p).2 = "local"
  ∧ metadataLookups (Memoized.init w p).2 = metadataLookups p
  ∧ metadataLookups (Memoized.setupOpenTelemetry w ctx name p).2
    = metadataLookups p
  ∧ ((Memoized.setupOpenTelemetry w ctx name p).1.2 = None →
     ∃ tp, tracerProvider (Memoized.setupOpenTelemetry w ctx name p).2
           = Some tp
           ∧ batcher tp = OTLPGrpcExporter
           ∧ options (resource tp) = [WithAttributes_ServiceName name]).
Proof.
  intros Hoff.
  split; [by apply getGcpProjectID_disabled |].
  assert (Hinit : Memoized.init w p
                  = (tt, {| GCPProjectID := "local";
                            textMapPropagator := textMapPropagator p;
                            tracerProvider := tracerProvider p;
                            metadataLookups := metadataLookups p |})).
  { unfold Memoized.init. run_state.
    by rewrite getGcpProjectID_disabled. }
  rewrite Hinit. simpl. split; [done |]. split; [done |].
  destruct (Memoized_setup_outcome w ctx name p)
    as [(err & msg & _ & ->) | (_ & tp & -> & Hb & Ho & _)]; simpl.
  - split; [done | by intros ?].
  - split; [done |]. intros _. exists tp.
    rewrite Hoff in Hb, Ho. done.
Qed.

Lemma flag_off_resolves_local_witness :
  Memoized.getGcpProjectID localWorld freshProcess = ("local", freshProcess)
  ∧ GCPProjectID (Memoized.init localWorld freshProcess).2 = "local"
  ∧ metadataLookups (Memoized.init localWorld freshProcess).2 = 0.
Proof.
  destruct (flag_off_resolves_local localWorld Background "svc" freshProcess)
    as (Hid & Hinit & Hcalls & _); [reflexivity |].
  exact (conj Hid (conj Hinit Hcalls)).
Defined.

(** C5, as stated, fails.  [isCloud] of the specification is false when
    the flag is set and the metadata call fails; the bootstrap of such a
    deployment nevertheless installs the parent-based ratio policy, not the
    always-sample policy that the two-way switch gives for [isCloud]
    false. *)
Lemma sampler_ignores_lookup_outcome :
  let p := (Memoized.init flaggedWorld freshProcess).2 in
  isCloud_spec flaggedWorld = false
  ∧ (∃ tp,
        Memoized.setupOpenTelemetry flaggedWorld Background "svc" p
        = ((Some (shutdown flaggedWorld tp), None), installed p tp)
        ∧ sampler tp = ParentBased (TraceIDRatioBased (1 # 100)%Q)
        ∧ sampler tp ≠ selectSampler_spec (isCloud_spec flaggedWorld))
  ∧ ¬ (∀ (w : World) (ctx : Context) (name : string) (p : Process)
         (tp : TracerProvider),
         (Memoized.setupOpenTelemetry w ctx name p).1.2 = None →
         tracerProvider (Memoized.setupOpenTelemetry w ctx name p).2
         = Some tp →
         sampler tp = selectSampler_spec (isCloud_spec w)).
Proof.
  intros p. subst p. split; [reflexivity |]. split.
  - exists {| batcher := CloudTraceExporter "";
              resource :=
                {| options := [WithDetectors_gcp; WithTelemetrySDK;
                               WithAttributes_ServiceName "svc"] |};
              sampler := ParentBased (TraceIDRatioBased (1 # 100)%Q) |}.
    split; [reflexivity |]. split; [reflexivity | discriminate].
  - intros Hswitch.
    specialize (Hswitch flaggedWorld Background "svc"
                  (Memoized.init flaggedWorld freshProcess).2 _
                  eq_refl eq_refl).
    discriminate Hswitch.
Qed.

(** C5, amended.  The sampler is a function of the cloud-tracing flag
    alone, whatever the metadata call gave.  When every construction step
    succeeds, the bootstrap installs the provider whose sampler is the
    two-way switch applied to the flag: with the flag on, the parent-based
    policy around the ratio 0.01, which follows a valid parent's sampling
    decision and leaves a root span to the ratio; with the flag off, the
    always-sample policy, which samples every span.  No third policy
    occurs.  The sampler is the switch applied to the specification's
    [isCloud] exactly when the flag is off or the metadata call
    succeeded. *)
Theorem sampler_is_switch_on_flag (w : World) (ctx : Context)
    (name : string) (p : Process) :
  Forall (λ step, step = None) (constructionSteps w p name) →
  ∃ tp,
    Memoized.setupOpenTelemetry w ctx name p
    = ((Some (shutdown w tp), None), installed p tp)
    ∧ sampler tp = selectSampler_spec (gcpTracingEnabled w)
    ∧ (gcpTracingEnabled w = true →
       sampler tp = ParentBased (TraceIDRatioBased (1 # 100)%Q)
       ∧ ∀ ratioSamples parent id,
           ShouldSample ratioSamples (sampler tp) parent id
           = if IsValid parent then IsSampled parent
             else ratioSamples (1 # 100)%Q id)
    ∧ (gcpTracingEnabled w = false →
       sampler tp = AlwaysSample
       ∧ ∀ ratioSamples parent id,
           ShouldSample ratioSamples (sampler tp) parent id = true)
    ∧ (sampler tp = ParentBased (TraceIDRatioBased (1 # 100)%Q)
       ∨ sampler tp = AlwaysSample)
    ∧ (sampler tp = selectSampler_spec (isCloud_spec w)
       ↔ gcpTracingEnabled w = false ∨ (metadataProjectID w).2 = None).
Proof.
  intros Hall.
  destruct (Memoized_setup_outcome w ctx name p)
    as [(err & msg & Hin & _) | (_ & tp & Heq & _ & _ & Hs)].
  { rewrite Forall_forall in Hall. by specialize (Hall _ Hin). }
  exists tp. split; [done |]. split; [done |].
  rewrite Hs. unfold isCloud_spec, selectSampler_spec.
  destruct (gcpTracingEnabled w); simpl.
  - split; [done |]. split; [by intros ? |]. split; [by left |].
    destruct (metadataProjectID w).2 as [e|].
    + split; [done | by intros [? | ?]].
    + split; [by right | done].
  - split; [by intros ? |]. split; [done |]. split; [by right |].
    split; [by left | done].
Qed.

Lemma sampler_is_switch_on_flag_witness :
  ∃ tp,
    tracerProvider
      (Memoized.setupOpenTelemetry cloudWorld Background "svc"
         (Memoized.init cloudWorld freshProcess).2).2 = Some tp
    ∧ sampler tp = ParentBased (TraceIDRatioBased (1 # 100)%Q)
    ∧ sampler tp = selectSampler_spec (isCloud_spec cloudWorld).
Proof.
  destruct (sampler_is_switch_on_flag cloudWorld Background "svc"
              (Memoized.init cloudWorld freshProcess).2)
    as (tp & Hrun & _ & Hcloud & _ & _ & Hspec).
  - vm_compute. repeat constructor.
  - exists tp. split; [by rewrite Hrun |].
    split; [apply Hcloud; reflexivity |].
    apply Hspec. right. reflexivity.
Defined.

(** C7.  If a construction step of the branch taken fails, then
    [setupOpenTelemetry] returns a nil shutdown function and a non-nil error
    that wraps the failure, the global propagator and tracer provider (the
    whole process state) are as before the call, and the entry point ends
    in [logrus.Fatal] with that error, exit code 1, instead of returning an
    application. *)
Theorem bootstrap_failure_is_fatal (w : World) (ctx : Context)
    (name : string) (p : Process) :
  (∃ err, Some err ∈ constructionSteps w p name) →
  (Memoized.setupOpenTelemetry w ctx name p).1.1 = None
  ∧ (∃ msg cause,
        (Memoized.setupOpenTelemetry w ctx name p).1.2
        = Some (wrapError msg cause)
        ∧ Some cause ∈ constructionSteps w p name
        ∧ (Memoized.NewLogrusAndTraceAwareFiberApp w ctx name p).1
          = Fatal (wrapError msg cause) 1)
  ∧ textMapPropagator (Memoized.setupOpenTelemetry w ctx name p).2
    = textMapPropagator p
  ∧ tracerProvider (Memoized.setupOpenTelemetry w ctx name p).2
    = tracerProvider p
  ∧ (Memoized.setupOpenTelemetry w ctx name p).2 = p.
Proof.
  intros [err Hfail].
  unfold Memoized.NewLogrusAndTraceAwareFiberApp. run_state.
  destruct (Memoized_setup_outcome w ctx name p)
    as [(cause & msg & Hin & ->) | (Hall & _)]; simpl.
  - split; [done |]. split; [| done]. by exists msg, cause.
  - rewrite Forall_forall in Hall. by specialize (Hall _ Hfail).
Qed.

Lemma bootstrap_failure_is_fatal_witness :
  (Memoized.setupOpenTelemetry brokenWorld Background "svc" freshProcess).1.1
  = None
  ∧ tracerProvider
      (Memoized.setupOpenTelemetry brokenWorld Background "svc" freshProcess).2
    = None.
Proof.
  destruct (bootstrap_failure_is_fatal brokenWorld Background "svc"
              freshProcess) as (Hnil & _ & _ & Htp & _).
  - exists (errorString "no endpoint"). vm_compute. set_solver.
  - exact (conj Hnil Htp).
Defined.

(** The converse of the failure case: when no construction step fails, the
    entry point returns the application with its three middlewares and the
    shutdown function of the installed provider. *)
Lemma bootstrap_success_returns (w : World) (ctx : Context) (name : string)
    (p : Process) :
  Forall (λ step, step = None) (constructionSteps w p name) →
  ∃ tp,
    Memoized.NewLogrusAndTraceAwareFiberApp w ctx name p
    = (Returned
         ({| handlers := [fiberlogrus_New; otelfiber_Middleware;
                          traceAwareLogrusLoggerMiddleware] |},
          Some (shutdown w tp)),
       installed p tp).
Proof.
  intros Hall.
  unfold Memoized.NewLogrusAndTraceAwareFiberApp. run_state.
  destruct (Memoized_setup_outcome w ctx name p)
    as [(cause & msg & Hin & _) | (_ & tp & -> & _)].
  - rewrite Forall_forall in Hall. by specialize (Hall _ Hin).
  - by exists tp.
Qed.

Lemma defaultSampler_unset (w : World) :
  environ w !! "OTEL_TRACES_SAMPLER" = None →
  defaultSampler w = ParentBased AlwaysSample.
Proof. unfold defaultSampler. by intros ->. Qed.

(** C10, as stated, fails for the older bootstrap.  With the flag spelled
    [TRUE] it takes the local branch and installs the OTLP/gRPC exporter,
    but it passes no sampler to the provider, which therefore gets the
    SDK's default, here the parent-based always-on policy: under a valid
    parent that was not sampled a span is not sampled, so the policy is not
    the always-sample one. *)
Lemma legacy_local_branch_not_always_sample :
  Getenv shoutedWorld "ENABLE_GCP_TRACING" ≠ "true"
  ∧ ∃ tp,
      Legacy.setupOpenTelemetry shoutedWorld Background "svc" freshProcess
      = ((Some (shutdown shoutedWorld tp), None), installed freshProcess tp)
      ∧ batcher tp = OTLPGrpcExporter
      ∧ sampler tp = ParentBased AlwaysSample
      ∧ sampler tp ≠ AlwaysSample
      ∧ ∀ ratioSamples id,
          ShouldSample ratioSamples (sampler tp) unsampledParent id = false.
Proof.
  split; [vm_compute; congruence |].
  exists {| batcher := OTLPGrpcExporter;
            resource := {| options := [WithAttributes_ServiceName "svc"] |};
            sampler := ParentBased AlwaysSample |}.
  split; [reflexivity |]. split; [reflexivity |]. split; [reflexivity |].
  split; [discriminate | reflexivity].
Qed.

(** C10, amended.  The cloud branch is taken exactly when the environment
    holds [ENABLE_GCP_TRACING=true], letter for letter.  For any other
    value, or none: the resolver yields ["local"] without calling the
    metadata look-up; neither bootstrap calls it; and when the resource and
    the OTLP exporter can be built, both bootstraps install a provider that
    exports over OTLP/gRPC with the service-name resource.  The memoized
    bootstrap gives that provider the always-sample policy; the older one
    passes no sampler, so its provider has the SDK's default, which is the
    parent-based always-on policy when [OTEL_TRACES_SAMPLER] is unset: it
    follows a valid parent's decision and samples every root span.  With
    the exact value, a bootstrap whose steps succeed installs the cloud
    exporter and the parent-based ratio policy instead. *)
Theorem cloud_branch_needs_exact_true (w : World) (ctx : Context)
    (name : string) (p : Process) :
  (gcpTracingEnabled w = true
   ↔ environ w !! "ENABLE_GCP_TRACING" = Some "true")
  ∧ (Getenv w "ENABLE_GCP_TRACING" ≠ "true" →
     Memoized.getGcpProjectID w p = ("local", p)
     ∧ metadataLookups (Memoized.setupOpenTelemetry w ctx name p).2
       = metadataLookups p
     ∧ metadataLookups (Legacy.setupOpenTelemetry w ctx name p).2
       = metadataLookups p
     ∧ (resourceNew w [WithAttributes_ServiceName name] = None →
        otlptracegrpcNew w = None →
        let res := {| options := [WithAttributes_ServiceName name] |} in
        let memo :=
          {| batcher := OTLPGrpcExporter; resource := res;
             sampler := AlwaysSample |} in
        let legacy :=
          {| batcher := OTLPGrpcExporter; resource := res;
             sampler := defaultSampler w |} in
        Memoized.setupOpenTelemetry w ctx name p
        = ((Some (shutdown w memo), None), installed p memo)
        ∧ Legacy.setupOpenTelemetry w ctx name p
          = ((Some (shutdown w legacy), None), installed p legacy))
     ∧ (environ w !! "OTEL_TRACES_SAMPLER" = None →
        defaultSampler w = ParentBased AlwaysSample
        ∧ ∀ ratioSamples parent id,
            ShouldSample ratioSamples (defaultSampler w) parent id
            = if IsValid parent then IsSampled parent else true))
  ∧ (Getenv w "ENABLE_GCP_TRACING" = "true" →
     Forall (λ step, step = None) (constructionSteps w p name) →
     ∃ tp,
       Memoized.setupOpenTelemetry w ctx name p
       = ((Some (shutdown w tp), None), installed p tp)
       ∧ batcher tp = CloudTraceExporter (GCPProjectID p)
       ∧ sampler tp = ParentBased (TraceIDRatioBased (1 # 100)%Q)).
Proof.
  split; [| split].
  - rewrite gcpTracingEnabled_true. unfold Getenv.
    destruct (environ w !! "ENABLE_GCP_TRACING") as [v|]; simpl.
    + split; [by intros -> | by intros [= ->]].
    + split; intros; done.
  - intros Hne. apply gcpTracingEnabled_false in Hne.
    split; [by apply getGcpProjectID_disabled |].
    split.
    { destruct (Memoized_setup_outcome w ctx name p)
        as [(err & msg & _ & ->) | (_ & tp & -> & _)]; done. }
    split.
    { destruct (Legacy_setup_disabled w ctx name p Hne)
        as [(e & ->) | (tp & -> & _)]; done. }
    split.
    + intros Hres Hotlp res memo legacy. subst res memo legacy.
      unfold Memoized.setupOpenTelemetry, Legacy.setupOpenTelemetry.
      unfold gcpTracingEnabled in Hne. rewrite Hne, Hres, Hotlp.
      split; reflexivity.
    + intros Hunset. rewrite (defaultSampler_unset w Hunset).
      split; [done |]. intros ratioSamples parent id. reflexivity.
  - intros Heq Hall. apply gcpTracingEnabled_true in Heq.
    destruct (Memoized_setup_outcome w ctx name p)
      as [(err & msg & Hin & _) | (_ & tp & Hr & Hb & _ & Hs)].
    { rewrite Forall_forall in Hall. by specialize (Hall _ Hin). }
    rewrite Heq in Hb, Hs. by exists tp.
Qed.

Lemma cloud_branch_needs_exact_true_witness :
  Memoized.getGcpProjectID shoutedWorld freshProcess = ("local", freshProcess)
  ∧ (∃ tp, tracerProvider
             (Memoized.setupOpenTelemetry shoutedWorld Background "svc"
                freshProcess).2 = Some tp
           ∧ batcher tp = OTLPGrpcExporter
           ∧ sampler tp = AlwaysSample)
  ∧ (∃ tp, tracerProvider
             (Legacy.setupOpenTelemetry shoutedWorld Background "svc"
                freshProcess).2 = Some tp
           ∧ batcher tp = OTLPGrpcExporter
           ∧ sampler tp = ParentBased AlwaysSample)
  ∧ metadataLookups
      (Legacy.setupOpenTelemetry shoutedWorld Background "svc"
         freshProcess).2 = 0%nat.
Proof.
  destruct (cloud_branch_needs_exact_true shoutedWorld Background "svc"
              freshProcess) as (_ & Hlocal & _).
  destruct Hlocal as (Hid & _ & Hcalls & Hrun & Hdefault);
    [vm_compute; congruence |].
  destruct Hrun as (Hmemo & Hlegacy); [reflexivity | reflexivity |].
  destruct Hdefault as (Hsampler & _); [reflexivity |].
  split; [exact Hid |].
  split; [eexists; rewrite Hmemo; by repeat split |].
  split; [| exact Hcalls].
  eexists. rewrite Hlegacy. split; [reflexivity |].
  split; [reflexivity | exact Hsampler].
Defined.

(** Values that do not switch the cloud branch on. *)
Lemma flag_other_spellings :
  gcpTracingEnabled (quietWorld ∅ ("my-project", None)) = false
  ∧ gcpTracingEnabled (quietWorld {[ "ENABLE_GCP_TRACING" := "TRUE" ]}
               ("my-project", None)) = false
  ∧ gcpTracingEnabled (quietWorld {[ "ENABLE_GCP_TRACING" := "1" ]}
               ("my-project", None)) = false
  ∧ gcpTracingEnabled (quietWorld {[ "ENABLE_GCP_TRACING" := "yes" ]}
               ("my-project", None)) = false
  ∧ gcpTracingEnabled (quietWorld {[ "ENABLE_GCP_TRACING" := "true " ]}
               ("my-project", None)) = false
  ∧ gcpTracingEnabled (quietWorld {[ "ENABLE_GCP_TRACING" := "true" ]}
               ("my-project", None)) = true.
Proof. by repeat split. Qed.

(** ** Shutdown *)

Lemma omap_id_nil (errs : list (option error)) :
  omap id errs = [] ↔ Forall (λ e, e = None) errs.
Proof.
  induction errs as [|[e|] errs IH]; simpl.
  - split; [by constructor | done].
  - split; [done | by inversion 1].
  - rewrite IH. split; [by constructor | by inversion 1].
Qed.

Lemma elem_of_omap_id (errs : list (option error)) (e : error) :
  e ∈ omap id errs ↔ Some e ∈ errs.
Proof.
  rewrite list_elem_of_omap. split.
  - by intros ([x|] & Hin & [= ->]).
  - intros Hin. by exists (Some e).
Qed.

(** C8.  The shutdown function returns nil exactly when the teardown of the
    provider does, and otherwise an error whose message holds the teardown
    error; it is the function a successful bootstrap hands out for the
    provider it installed.  [SafeShutdown] returns normally exactly when
    every error it is given is nil, and otherwise ends the process with the
    join of precisely the non-nil ones. *)
Theorem shutdown_errors_aggregated (w : World) (tp : TracerProvider)
    (ctx : Context) (errs : list (option error)) :
  (shutdown w tp ctx = None ↔ tracerProviderShutdown w tp ctx = None)
  ∧ (∀ err, tracerProviderShutdown w tp ctx = Some err →
            shutdown w tp ctx
            = Some (errorString
                      ("failed to shutdown: [" +:+ Error err +:+ "]")))
  ∧ (∀ name p,
       (Memoized.setupOpenTelemetry w ctx name p).1.2 = None →
       ∃ tp', (Memoized.setupOpenTelemetry w ctx name p).1.1
              = Some (shutdown w tp')
              ∧ tracerProvider (Memoized.setupOpenTelemetry w ctx name p).2
                = Some tp')
  ∧ (SafeShutdown errs = Returned tt ↔ Forall (λ e, e = None) errs)
  ∧ (¬ Forall (λ e, e = None) errs →
     ∃ l, SafeShutdown errs = Fatal (joinError l) 1
          ∧ l = omap id errs
          ∧ ∀ e, e ∈ l ↔ Some e ∈ errs).
Proof.
  split; [| split; [| split; [| split]]].
  - unfold shutdown.
    by destruct (tracerProviderShutdown w tp ctx).
  - intros err Herr. unfold shutdown. by rewrite Herr.
  - intros name p Hok.
    destruct (Memoized_setup_outcome w ctx name p)
      as [(err & msg & _ & Hr) | (_ & tp' & Hr & _)];
      rewrite Hr in Hok |- *; simpl in *; [done | by exists tp'].
  - rewrite <- omap_id_nil. unfold SafeShutdown, Join.
    by destruct (omap id errs).
  - intros Hsome. rewrite <- omap_id_nil in Hsome.
    unfold SafeShutdown, Join.
    destruct (omap id errs) as [|e l] eqn:Hl; [done |].
    exists (e :: l). split; [done |]. split; [done |].
    intros e'. rewrite <- Hl. apply elem_of_omap_id.
Qed.

Lemma shutdown_errors_aggregated_witness :
  shutdown stuckWorld localProvider Background
  = Some (errorString "failed to shutdown: [context deadline exceeded]")
  ∧ ∃ l, SafeShutdown [None; Some (errorString "flush failed"); None]
         = Fatal (joinError l) 1.
Proof.
  destruct (shutdown_errors_aggregated stuckWorld localProvider Background
              [None; Some (errorString "flush failed"); None])
    as (_ & Hmsg & _ & _ & Hfatal).
  split.
  - apply (Hmsg (errorString "context deadline exceeded")). reflexivity.
  - destruct Hfatal as (l & Hl & _).
    + intros Hall. inversion Hall as [|? ? _ Htl]. inversion Htl. discriminate.
    + by exists l.
Defined.

(** ** The two variants compared *)

Lemma trace_path_inj (a b t : string) :
  "projects/" +:+ a +:+ "/traces/" +:+ t
  = "projects/" +:+ b +:+ "/traces/" +:+ t ↔ a = b.
Proof.
  split; [| by intros ->].
  intros Heq. cbn in Heq. injection Heq as Heq.
  apply (append_cancel_r a b ("/traces/" +:+ t)). exact Heq.
Qed.

(** C9, as stated, fails.  On a machine without the flag and without a
    metadata service, for a request with a valid span, the memoized variant
    writes the trace path of project ["local"] and the older variant that of
    the empty project, so the trace fields of the two loggers are not
    identical for every context. *)
Lemma variants_differ_on_trace_field :
  let p := (Memoized.init localWorld freshProcess).2 in
  Data (Memoized.newTraceAwareLogrusLogger tracedContext p).1
    !! "logging.googleapis.com/trace"
  = Some (VString "projects/local/traces/4bf92f3577b34da6a3ce929d0e0e4736")
  ∧ Data (Legacy.newTraceAwareLogrusLogger localWorld tracedContext p).1
      !! "logging.googleapis.com/trace"
    = Some (VString "projects//traces/4bf92f3577b34da6a3ce929d0e0e4736")
  ∧ ¬ (∀ (w : World) (ctx : Context) (p0 : Process),
         let p := (Memoized.init w p0).2 in
         Data (Memoized.newTraceAwareLogrusLogger ctx p).1
           !! "logging.googleapis.com/trace"
         = Data (Legacy.newTraceAwareLogrusLogger w ctx p).1
             !! "logging.googleapis.com/trace").
Proof.
  split; [reflexivity |]. split; [reflexivity |].
  intros Hsame.
  specialize (Hsame localWorld tracedContext freshProcess).
  vm_compute in Hsame. discriminate Hsame.
Qed.

(** C9, amended.  For every context the loggers of the two variants have
    identical span-id and sampled fields and the same set of field names,
    and are the same plain entry when the context has no valid span.  For a
    valid span their trace fields are identical exactly when the memoized
    project identifier equals the identifier the older resolver obtains (the
    answer of the metadata service, or the empty string when the look-up
    fails).  That is the case after package initialisation when
    [ENABLE_GCP_TRACING=true] and the look-up succeeds: the two loggers are
    then equal. *)
Theorem variants_agree_up_to_project (w : World) (ctx : Context)
    (p : Process) :
  let memo := (Memoized.newTraceAwareLogrusLogger ctx p).1 in
  let legacy := (Legacy.newTraceAwareLogrusLogger w ctx p).1 in
  Data memo !! "logging.googleapis.com/spanId"
    = Data legacy !! "logging.googleapis.com/spanId"
  ∧ Data memo !! "logging.googleapis.com/traceSampled"
    = Data legacy !! "logging.googleapis.com/traceSampled"
  ∧ dom (Data memo) = dom (Data legacy)
  ∧ (IsValid (SpanFromContext ctx) = false → memo = legacy)
  ∧ (IsValid (SpanFromContext ctx) = true →
     (Data memo !! "logging.googleapis.com/trace"
      = Data legacy !! "logging.googleapis.com/trace"
      ↔ GCPProjectID p = (Legacy.getGcpProjectID w ctx p).1))
  ∧ (gcpTracingEnabled w = true → (metadataProjectID w).2 = None →
     ∀ p0, p = (Memoized.init w p0).2 → memo = legacy).
Proof.
  intros memo legacy. subst memo legacy.
  destruct (IsValid (SpanFromContext ctx)) eqn:Hv.
  - rewrite Memoized_logger_valid, Legacy_logger_valid by done. simpl.
    fold spanIdField traceSampledField traceField.
    rewrite !traceFields_spanId, !traceFields_traceSampled, !traceFields_trace.
    split; [done |]. split; [done |].
    split; [unfold traceFields; by rewrite !dom_insert_L |].
    split; [done |].
    split.
    + intros _. split; [| by intros ->].
      intros Heq. apply (inj Some), (f_equal (λ v, match v with
                                                  | VString s => s
                                                  | VBool _ => ""
                                                  end)) in Heq.
      exact (proj1 (trace_path_inj _ _ _) Heq).
    + intros Hon Hok p0 ->.
      unfold Memoized.init. run_state.
      rewrite getGcpProjectID_enabled by done. simpl.
      rewrite !Legacy_getGcpProjectID_eq. by rewrite Hok.
  - rewrite Memoized_logger_invalid, Legacy_logger_invalid by done. simpl.
    by repeat split.
Qed.

Lemma variants_agree_up_to_project_witness :
  (Memoized.newTraceAwareLogrusLogger tracedContext
     (Memoized.init cloudWorld freshProcess).2).1
  = (Legacy.newTraceAwareLogrusLogger cloudWorld tracedContext
       (Memoized.init cloudWorld freshProcess).2).1
  ∧ (Memoized.newTraceAwareLogrusLogger Background freshProcess).1
    = (Legacy.newTraceAwareLogrusLogger localWorld Background freshProcess).1.
Proof.
  split.
  - destruct (variants_agree_up_to_project cloudWorld tracedContext
                (Memoized.init cloudWorld freshProcess).2)
      as (_ & _ & _ & _ & _ & Hsame).
    apply (Hsame eq_refl eq_refl freshProcess). reflexivity.
  - destruct (variants_agree_up_to_project localWorld Background freshProcess)
      as (_ & _ & _ & Hplain & _).
    apply Hplain. reflexivity.
Defined.

(** * Further properties of the package *)

(** ** The middleware and the loggers *)

(** X1.  The middleware hands the request to the rest of the chain with the
    logger of the request's user context stored under ["logger"], so that
    [GetLogger] downstream returns exactly that logger, whatever the slot
    held before; the user context and every other local are passed on
    unchanged, the process state is not touched, and the result of the
    chain is the result of the middleware. *)
Theorem middleware_then_GetLogger (c : Ctx) (next : Ctx → M (option error))
    (p : Process) :
  ∃ c',
    Memoized.newTraceAwareLogrusLoggerMiddleware c next p = next c' p
    ∧ GetLogger c'
      = (Memoized.newTraceAwareLogrusLogger (UserContext c) p).1
    ∧ UserContext c' = UserContext c
    ∧ ∀ key, key ≠ "logger" → Locals c' key = Locals c key.
Proof.
  exists (SetLocals c "logger"
            (LEntry (Memoized.newTraceAwareLogrusLogger (UserContext c) p).1)).
  split; [apply middleware_attaches_logger |].
  split.
  { unfold GetLogger, Locals, SetLocals. simpl. by rewrite lookup_insert_eq. }
  split; [done |].
  intros key Hkey. unfold Locals, SetLocals. simpl.
  by rewrite lookup_insert_ne.
Qed.

Lemma middleware_then_GetLogger_witness :
  ∃ c',
    Memoized.newTraceAwareLogrusLoggerMiddleware
      {| userContext := tracedContext;
         locals := {[ "logger" := LString "stale"; "user" := LString "ann" ]} |}
      (λ _, mret None) (Memoized.init localWorld freshProcess).2
    = (None, (Memoized.init localWorld freshProcess).2)
    ∧ Data (GetLogger c') !! "logging.googleapis.com/trace"
      = Some (VString "projects/local/traces/4bf92f3577b34da6a3ce929d0e0e4736")
    ∧ Locals c' "user" = Some (LString "ann").
Proof.
  destruct (middleware_then_GetLogger
              {| userContext := tracedContext;
                 locals := {[ "logger" := LString "stale";
                              "user" := LString "ann" ]} |}
              (λ _, mret None) (Memoized.init localWorld freshProcess).2)
    as (c' & Hrun & Hlog & _ & Hrest).
  exists c'. split; [exact Hrun |]. split.
  - rewrite Hlog. reflexivity.
  - rewrite Hrest by done. reflexivity.
Defined.

(** X2.  Calls of the metadata look-up by the logger factories.  The
    memoized factory never changes the process state, so it never calls
    [metadata.ProjectIDWithContext].  The older factory calls it exactly
    once for a context with a valid span and not at all otherwise, and
    changes nothing else; the older middleware makes that call for every
    traced request before the rest of the chain runs. *)
Theorem logger_metadata_lookups (w : World) (c : Ctx)
    (next : Ctx → M (option error)) (p : Process) :
  let traced := IsValid (SpanFromContext (UserContext c)) in
  let p' := (Legacy.newTraceAwareLogrusLogger w (UserContext c) p).2 in
  (Memoized.newTraceAwareLogrusLogger (UserContext c) p).2 = p
  ∧ metadataLookups p'
    = (metadataLookups p + (if traced then 1 else 0))%nat
  ∧ GCPProjectID p' = GCPProjectID p
  ∧ textMapPropagator p' = textMapPropagator p
  ∧ tracerProvider p' = tracerProvider p
  ∧ Legacy.newTraceAwareLogrusLoggerMiddleware w c next p
    = next (SetLocals c "logger"
              (LEntry (Legacy.newTraceAwareLogrusLogger w (UserContext c) p).1))
           p'.
Proof.
  intros traced p'. subst traced p'.
  destruct (IsValid (SpanFromContext (UserContext c))) eqn:Hv.
  - rewrite Memoized_logger_valid by done.
    unfold Legacy.newTraceAwareLogrusLoggerMiddleware,
      Legacy.newTraceAwareLogrusLogger, Legacy.getGcpProjectID.
    rewrite Hv. run_state.
    destruct (metadataProjectID w) as [v [e|]]; simpl;
      repeat split; try done; lia.
  - rewrite Memoized_logger_invalid by done.
    unfold Legacy.newTraceAwareLogrusLoggerMiddleware. run_state.
    rewrite Legacy_logger_invalid by done. simpl.
    repeat split; try done; lia.
Qed.

Lemma Z_land_1_odd (f : Z) : (Z.land f 1 =? 1)%Z = Z.odd f.
Proof.
  change 1%Z with (Z.ones 1) at 1. rewrite Z.land_ones by lia.
  change (2 ^ 1)%Z with 2%Z. rewrite Zmod_odd. by destruct (Z.odd f).
Qed.

(** X3.  For every valid span, sampled or not, the logger carries exactly
    the three trace fields, the sampled field is the lowest bit of the
    span's trace flags (the other bits play no part), and the entry writes
    through the standard logger.  An entry of the factory writes through the
    standard logger only in that case: without a valid span it belongs to a
    logger of its own, made by [logrus.New()]. *)
Theorem valid_span_logger (ctx : Context) (p : Process) :
  let sc := SpanFromContext ctx in
  let logger := (Memoized.newTraceAwareLogrusLogger ctx p).1 in
  (Logger logger = StdLogger ↔ IsValid sc = true)
  ∧ (IsValid sc = true →
     Data logger !! "logging.googleapis.com/traceSampled"
     = Some (VBool (Z.odd (traceFlags sc)))
     ∧ Data logger !! "logging.googleapis.com/trace"
       = Some (VString ("projects/" +:+ GCPProjectID p +:+ "/traces/"
                          +:+ TraceID.String (traceID sc)))
     ∧ Data logger !! "logging.googleapis.com/spanId"
       = Some (VString (SpanID.String (spanID sc)))
     ∧ size (Data logger) = 3%nat).
Proof.
  intros sc logger. subst sc logger.
  destruct (IsValid (SpanFromContext ctx)) eqn:Hv.
  - rewrite Memoized_logger_valid by done. simpl.
    split; [done |]. intros _.
    fold traceSampledField traceField spanIdField.
    rewrite traceFields_traceSampled, traceFields_trace, traceFields_spanId.
    unfold IsSampled, FlagsSampled. rewrite Z_land_1_odd.
    by repeat split.
  - rewrite Memoized_logger_invalid by done. simpl.
    split; [split; intros; done | done].
Qed.

Lemma valid_span_logger_witness :
  let unsampled :=
    {| currentSpan :=
         Some {| traceID := sampleTraceID; spanID := sampleSpanID;
                 traceFlags := 2; remote := true |} |} in
  Data (Memoized.newTraceAwareLogrusLogger unsampled freshProcess).1
    !! "logging.googleapis.com/traceSampled" = Some (VBool false)
  ∧ size (Data (Memoized.newTraceAwareLogrusLogger unsampled freshProcess).1)
    = 3%nat.
Proof.
  intros unsampled.
  destruct (valid_span_logger unsampled freshProcess) as (_ & Hfields).
  destruct Hfields as (Hs & _ & _ & Hn); [reflexivity |].
  split; [exact Hs | exact Hn].
Defined.

(** ** Initialisation and bootstrap *)

(** X4.  Package initialisation asks the metadata service once when the
    flag is on and never otherwise; it stores the answer's string (whatever
    error came with it) or ["local"], and leaves the OpenTelemetry globals
    alone.  Every logger built afterwards for a valid span carries the
    trace path of the stored identifier. *)
Theorem init_resolves_once (w : World) (p : Process) :
  let p' := (Memoized.init w p).2 in
  let projectID := if gcpTracingEnabled w then (metadataProjectID w).1 else "local" in
  GCPProjectID p' = projectID
  ∧ metadataLookups p'
    = (metadataLookups p + (if gcpTracingEnabled w then 1 else 0))%nat
  ∧ textMapPropagator p' = textMapPropagator p
  ∧ tracerProvider p' = tracerProvider p
  ∧ ∀ ctx, IsValid (SpanFromContext ctx) = true →
      Data (Memoized.newTraceAwareLogrusLogger ctx p').1
        !! "logging.googleapis.com/trace"
      = Some (VString ("projects/" +:+ projectID +:+ "/traces/"
                         +:+ TraceID.String (traceID (SpanFromContext ctx)))).
Proof.
  intros p' projectID.
  assert (Hinit : GCPProjectID p' = projectID
                  ∧ metadataLookups p'
                    = (metadataLookups p + (if gcpTracingEnabled w then 1 else 0))%nat
                  ∧ textMapPropagator p' = textMapPropagator p
                  ∧ tracerProvider p' = tracerProvider p).
  { subst p' projectID. unfold Memoized.init. run_state.
    destruct (gcpTracingEnabled w) eqn:Hc.
    - rewrite getGcpProjectID_enabled by done. simpl.
      repeat split; try done; lia.
    - rewrite getGcpProjectID_disabled by done. simpl.
      repeat split; try done; lia. }
  destruct Hinit as (Hid & Hn & Hp & Ht).
  repeat (split; [done |]).
  intros ctx Hv. rewrite Memoized_logger_valid by done. simpl.
  fold traceField. by rewrite traceFields_trace, Hid.
Qed.

Lemma init_resolves_once_witness :
  Data (Memoized.newTraceAwareLogrusLogger tracedContext
          (Memoized.init cloudWorld freshProcess).2).1
    !! "logging.googleapis.com/trace"
  = Some (VString
            "projects/my-project/traces/4bf92f3577b34da6a3ce929d0e0e4736")
  ∧ metadataLookups (Memoized.init cloudWorld freshProcess).2 = 1%nat.
Proof.
  destruct (init_resolves_once cloudWorld freshProcess)
    as (_ & Hn & _ & _ & Hlog).
  split; [| exact Hn].
  apply (Hlog tracedContext). reflexivity.
Defined.

(** The identifier the older variant works with: the answer of the metadata
    service, or the empty string when the look-up fails. *)
Lemma Legacy_getGcpProjectID_run (w : World) (ctx : Context) (p : Process) :
  Legacy.getGcpProjectID w ctx p
  = (match (metadataProjectID w).2 with
     | Some _ => ""
     | None => (metadataProjectID w).1
     end,
     {| GCPProjectID := GCPProjectID p;
        textMapPropagator := textMapPropagator p;
        tracerProvider := tracerProvider p;
        metadataLookups := S (metadataLookups p) |}).
Proof.
  unfold Legacy.getGcpProjectID. run_state.
  by destruct (metadataProjectID w) as [v [e|]].
Qed.

(** Every run of the older bootstrap: after the look-up the cloud branch
    makes, either a step failed and the wrapped error comes back alone, or
    the provider of the branch is installed. *)
Lemma Legacy_setup_outcome (w : World) (ctx : Context) (name : string)
    (p : Process) :
  let p1 :=
    if gcpTracingEnabled w
    then {| GCPProjectID := GCPProjectID p;
            textMapPropagator := textMapPropagator p;
            tracerProvider := tracerProvider p;
            metadataLookups := S (metadataLookups p) |}
    else p in
  (∃ err msg,
      Some err ∈ legacyConstructionSteps w name
      ∧ Legacy.setupOpenTelemetry w ctx name p
        = ((None, Some (wrapError msg err)), p1))
  ∨ (Forall (λ step, step = None) (legacyConstructionSteps w name)
     ∧ ∃ tp,
         Legacy.setupOpenTelemetry w ctx name p
         = ((Some (shutdown w tp), None), installed p1 tp)
         ∧ batcher tp
           = (if gcpTracingEnabled w
              then CloudTraceExporter
                     match (metadataProjectID w).2 with
                     | Some _ => ""
                     | None => (metadataProjectID w).1
                     end
              else OTLPGrpcExporter)
         ∧ sampler tp = defaultSampler w).
Proof.
  unfold Legacy.setupOpenTelemetry, legacyConstructionSteps,
    gcpTracingEnabled.
  destruct (String.eqb (Getenv w "ENABLE_GCP_TRACING") "true"); run_state.
  - rewrite !Legacy_getGcpProjectID_run.
    destruct (texporterNew w _) as [e1|] eqn:H1; run_state.
    { left. exists e1, ("failed to create resource: " +:+ Error e1).
      split; [apply list_elem_of_here | done]. }
    destruct (resourceNew w _) as [e2|] eqn:H2; run_state.
    { left. exists e2, ("failed to create resource: " +:+ Error e2).
      split; [apply list_elem_of_further, list_elem_of_here | done]. }
    right. split; [by repeat constructor |].
    eexists. split; [reflexivity |]. by split.
  - destruct (resourceNew w _) as [e1|] eqn:H1; run_state.
    { left. exists e1, ("failed to create resource: " +:+ Error e1).
      split; [apply list_elem_of_here | done]. }
    destruct (otlptracegrpcNew w) as [e2|] eqn:H2; run_state.
    { left. exists e2, ("failed to create trace exporter: " +:+ Error e2).
      split; [apply list_elem_of_further, list_elem_of_here | done]. }
    right. split; [by repeat constructor |].
    eexists. split; [reflexivity |]. by split.
Qed.

(** X5.  The older bootstrap.  It calls [metadata.ProjectIDWithContext]
    exactly once when the flag is on, also when it then fails, and never
    otherwise.  It reports an error exactly when one of its construction
    steps fails; then the shutdown function is nil, the global propagator
    and provider are as before, and the entry point ends in [logrus.Fatal]
    with that error.  When it succeeds the entry point returns the
    application with a non-nil shutdown function, and the installed provider
    exports to the cloud project the look-up named (the empty project when
    the look-up failed) or over OTLP.  Whatever the flag, the provider is
    built without a sampler option and so has the SDK's default, never a
    ratio of the package's choosing; with [OTEL_TRACES_SAMPLER] unset that
    default follows a valid parent's decision and samples every root
    span. *)
Theorem Legacy_bootstrap (w : World) (ctx : Context) (name : string)
    (p : Process) :
  let r := Legacy.setupOpenTelemetry w ctx name p in
  metadataLookups r.2
    = (metadataLookups p + (if gcpTracingEnabled w then 1 else 0))%nat
  ∧ (r.1.2 = None
     ↔ Forall (λ step, step = None) (legacyConstructionSteps w name))
  ∧ (∀ err, r.1.2 = Some err →
       r.1.1 = None
       ∧ textMapPropagator r.2 = textMapPropagator p
       ∧ tracerProvider r.2 = tracerProvider p
       ∧ (Legacy.NewLogrusAndTraceAwareFiberApp w ctx name p).1
         = Fatal err 1)
  ∧ (r.1.2 = None →
     ∃ tp,
       r.1.1 = Some (shutdown w tp)
       ∧ tracerProvider r.2 = Some tp
       ∧ textMapPropagator r.2 = Some AutopropTextMapPropagator
       ∧ (Legacy.NewLogrusAndTraceAwareFiberApp w ctx name p).1
         = Returned
             ({| handlers := [fiberlogrus_New; otelfiber_Middleware;
                              traceAwareLogrusLoggerMiddleware] |},
              Some (shutdown w tp))
       ∧ batcher tp
         = (if gcpTracingEnabled w
            then CloudTraceExporter
                   match (metadataProjectID w).2 with
                   | Some _ => ""
                   | None => (metadataProjectID w).1
                   end
            else OTLPGrpcExporter)
       ∧ sampler tp = defaultSampler w)
  ∧ (environ w !! "OTEL_TRACES_SAMPLER" = None →
     ∀ ratioSamples parent id,
       ShouldSample ratioSamples (defaultSampler w) parent id
       = if IsValid parent then IsSampled parent else true).
Proof.
  intros r. subst r.
  unfold Legacy.NewLogrusAndTraceAwareFiberApp. run_state.
  destruct (Legacy_setup_outcome w ctx name p)
    as [(cause & msg & Hin & ->) | (Hall & tp & -> & Hb & Hs)]; simpl.
  - split; [destruct (gcpTracingEnabled w); simpl; lia |].
    split.
    { split; [done |]. rewrite Forall_forall. intros Hnone.
      by specialize (Hnone _ Hin). }
    split.
    { intros err [= <-]. destruct (gcpTracingEnabled w); by repeat split. }
    split; [done |].
    intros Hunset ratioSamples parent id.
    by rewrite (defaultSampler_unset w Hunset).
  - split; [destruct (gcpTracingEnabled w); simpl; lia |].
    split; [done |]. split; [by intros err ? |].
    split; [intros _; by exists tp |].
    intros Hunset ratioSamples parent id.
    by rewrite (defaultSampler_unset w Hunset).
Qed.

Lemma Legacy_bootstrap_witness :
  metadataLookups
    (Legacy.setupOpenTelemetry flaggedWorld Background "svc" freshProcess).2
  = 1%nat
  ∧ ∃ tp,
      tracerProvider
        (Legacy.setupOpenTelemetry flaggedWorld Background "svc"
           freshProcess).2 = Some tp
      ∧ batcher tp = CloudTraceExporter ""
      ∧ ∀ ratioSamples id,
          ShouldSample ratioSamples (sampler tp) unsampledParent id = false.
Proof.
  destruct (Legacy_bootstrap flaggedWorld Background "svc" freshProcess)
    as (Hn & _ & _ & Hok & Hdefault).
  split; [exact Hn |].
  destruct Hok as (tp & _ & Htp & _ & _ & Hb & Hs); [reflexivity |].
  exists tp. split; [exact Htp |]. split; [exact Hb |].
  intros ratioSamples id. rewrite Hs. rewrite Hdefault by reflexivity.
  reflexivity.
Defined.

Lemma firstFailure_None (steps : list (option error)) :
  firstFailure steps = None ↔ Forall (λ step, step = None) steps.
Proof.
  unfold firstFailure. rewrite <- omap_id_nil.
  by destruct (omap id steps).
Qed.

(** X6.  The entry point returns exactly when no construction step fails,
    and then with the three middlewares in the order request log, tracing,
    trace-aware logger, a shutdown function that is never nil, and the
    provider behind that function installed as the global one; in every
    other case it ends in [logrus.Fatal] with exit code 1 and has installed
    nothing. *)
Theorem entry_point_returns_iff (w : World) (ctx : Context) (name : string)
    (p : Process) :
  let run := Memoized.NewLogrusAndTraceAwareFiberApp w ctx name p in
  ((∃ app sd, run.1 = Returned (app, sd))
   ↔ Forall (λ step, step = None) (constructionSteps w p name))
  ∧ (∀ app sd, run.1 = Returned (app, sd) →
       handlers app = [fiberlogrus_New; otelfiber_Middleware;
                       traceAwareLogrusLoggerMiddleware]
       ∧ ∃ tp, sd = Some (shutdown w tp)
               ∧ tracerProvider run.2 = Some tp
               ∧ textMapPropagator run.2 = Some AutopropTextMapPropagator)
  ∧ (∀ err code, run.1 = Fatal err code → code = 1%Z ∧ run.2 = p).
Proof.
  intros run. subst run.
  unfold Memoized.NewLogrusAndTraceAwareFiberApp. run_state.
  destruct (Memoized_setup_outcome w ctx name p)
    as [(cause & msg & Hin & ->) | (Hall & tp & -> & _)]; simpl.
  - split; [| split].
    + split; [by intros (app & sd & ?) |].
      rewrite Forall_forall. intros Hall. by specialize (Hall _ Hin).
    + by intros app sd ?.
    + by intros err code [= <- <-].
  - split; [| split].
    + split; [done | intros _; by eexists _, _].
    + intros app sd [= <- <-]. split; [done | by exists tp].
    + by intros err code ?.
Qed.

Lemma entry_point_returns_iff_witness :
  ∃ app sd,
    (Memoized.NewLogrusAndTraceAwareFiberApp localWorld Background "svc"
       freshProcess).1 = Returned (app, sd).
Proof.
  apply (entry_point_returns_iff localWorld Background "svc" freshProcess).
  vm_compute. repeat constructor.
Defined.

(** X7.  The error of a failed bootstrap is that of the first step that
    fails, in the order the branch attempts them, wrapped so that
    [errors.Unwrap] gives it back; its message is the cause's message after
    a prefix.  The prefix is ["failed to create trace exporter: "] only for
    the OTLP exporter; a failure to build the cloud exporter is reported
    under ["failed to create resource: "], like a failed resource.  No error
    is reported when no step fails. *)
Theorem bootstrap_error_wraps_first_failure (w : World) (ctx : Context)
    (name : string) (p : Process) :
  let err := (Memoized.setupOpenTelemetry w ctx name p).1.2 in
  let prefix :=
    if gcpTracingEnabled w then "failed to create resource: "
    else match resourceNew w [WithAttributes_ServiceName name] with
         | Some _ => "failed to create resource: "
         | None => "failed to create trace exporter: "
         end in
  (err = None ↔ firstFailure (constructionSteps w p name) = None)
  ∧ ∀ cause, firstFailure (constructionSteps w p name) = Some cause →
      ∃ e, err = Some e
           ∧ Unwrap e = Some cause
           ∧ Error e = prefix +:+ Error cause.
Proof.
  intros err prefix. subst err prefix.
  unfold Memoized.setupOpenTelemetry, constructionSteps, firstFailure, gcpTracingEnabled.
  destruct (String.eqb (Getenv w "ENABLE_GCP_TRACING") "true"); run_state.
  - destruct (texporterNew w (GCPProjectID p)) as [e1|]; simpl.
    { split; [done |]. intros cause [= <-]. by eexists. }
    destruct (resourceNew w _) as [e2|]; simpl.
    { split; [done |]. intros cause [= <-]. by eexists. }
    split; [done | by intros cause ?].
  - destruct (resourceNew w _) as [e1|]; simpl.
    { split; [done |]. intros cause [= <-]. by eexists. }
    destruct (otlptracegrpcNew w) as [e2|]; simpl.
    { split; [done |]. intros cause [= <-]. by eexists. }
    split; [done | by intros cause ?].
Qed.

Lemma bootstrap_error_wraps_first_failure_witness :
  ∃ e,
    (Memoized.setupOpenTelemetry brokenWorld Background "svc" freshProcess).1.2
    = Some e
    ∧ Unwrap e = Some (errorString "no endpoint")
    ∧ Error e = "failed to create trace exporter: no endpoint".
Proof.
  destruct (bootstrap_error_wraps_first_failure brokenWorld Background "svc"
              freshProcess) as (_ & Hwrap).
  destruct (Hwrap (errorString "no endpoint")) as (e & He & Hu & Hm);
    [reflexivity |].
  exists e. split; [exact He |]. split; [exact Hu | exact Hm].
Defined.

(** ** Shutdown, composed *)

Lemma SafeShutdown_Returned (errs : list (option error)) :
  SafeShutdown errs = Returned tt ↔ omap id errs = [].
Proof. unfold SafeShutdown, Join. by destruct (omap id errs). Qed.

Lemma Error_joinError (l : list error) :
  Error (joinError l) = String.concat newline (Error <$> l).
Proof.
  simpl. induction l as [|x l IH]; [done |].
  destruct l as [|y l]; [done |].
  rewrite IH. reflexivity.
Qed.

(** X8.  [SafeShutdown] over several subsystems.  It returns for no
    argument; nil arguments never matter; over two lists of results it
    returns exactly when it returns over each; and given the result of the
    bootstrap's shutdown function it returns exactly when the provider's
    teardown succeeded.  When it ends the process the exit code is 1 and the
    logged message is the messages of the non-nil errors, in order, one per
    line.  The error of the shutdown function itself carries the teardown
    message but does not wrap the teardown error: [errors.Unwrap] yields
    nil. *)
Theorem SafeShutdown_composes (w : World) (tp : TracerProvider)
    (ctx : Context) (a b : list (option error)) :
  SafeShutdown [] = Returned tt
  ∧ SafeShutdown (a ++ None :: b) = SafeShutdown (a ++ b)
  ∧ (SafeShutdown (a ++ b) = Returned tt
     ↔ SafeShutdown a = Returned tt ∧ SafeShutdown b = Returned tt)
  ∧ (SafeShutdown [shutdown w tp ctx] = Returned tt
     ↔ tracerProviderShutdown w tp ctx = None)
  ∧ (∀ err code, SafeShutdown a = Fatal err code →
       code = 1%Z
       ∧ Error err = String.concat newline (Error <$> omap id a))
  ∧ (∀ e, shutdown w tp ctx = Some e → Unwrap e = None).
Proof.
  split; [done |].
  split.
  { unfold SafeShutdown, Join. by rewrite !omap_app. }
  split.
  { rewrite !SafeShutdown_Returned, omap_app.
    split; [by intros [-> ->]%app_eq_nil | by intros [-> ->]]. }
  split.
  { unfold SafeShutdown, Join, shutdown.
    by destruct (tracerProviderShutdown w tp ctx). }
  split.
  { intros err code. unfold SafeShutdown, Join.
    destruct (omap id a) as [|e l] eqn:Hl; [done |].
    intros [= <- <-]. split; [done | apply Error_joinError]. }
  intros e. unfold shutdown.
  destruct (tracerProviderShutdown w tp ctx); [| done].
  by intros [= <-].
Qed.

Lemma SafeShutdown_composes_witness :
  ∃ err,
    SafeShutdown [Some (errorString "flush failed"); None;
                  Some (errorString "close failed")] = Fatal err 1
    ∧ Error err = "flush failed" +:+ newline +:+ "close failed".
Proof.
  destruct (SafeShutdown_composes localWorld localProvider Background
              [Some (errorString "flush failed"); None;
               Some (errorString "close failed")] [])
    as (_ & _ & _ & _ & Hfatal & _).
  eexists. split; [reflexivity |].
  apply (Hfatal _ 1%Z). reflexivity.
Defined.

(** ** Identifiers in the log fields *)

Lemma hexDigit_inj (n m : N) :
  (n < 16)%N → (m < 16)%N → hexDigit n = hexDigit m → n = m.
Proof.
  intros Hn Hm. unfold hexDigit. intros Heq.
  apply N2Nat.inj.
  assert (Ha : (N.to_nat n < 16)%nat) by lia.
  assert (Hb : (N.to_nat m < 16)%nat) by lia.
  revert Ha Hb Heq. generalize (N.to_nat n) (N.to_nat m). clear.
  intros a b Ha Hb.
  do 16 (destruct a as [|a];
         [do 16 (destruct b as [|b]; [by intros ? |]); lia |]).
  lia.
Qed.

Lemma hexByte_inj (b b' : Byte.byte) : hexByte b = hexByte b' → b = b'.
Proof.
  unfold hexByte. intros [= Hhi Hlo].
  pose proof (Byte.to_N_bounded b) as Hb.
  pose proof (Byte.to_N_bounded b') as Hb'.
  apply hexDigit_inj in Hhi;
    [| apply N.Div0.div_lt_upper_bound; lia
     | apply N.Div0.div_lt_upper_bound; lia].
  apply hexDigit_inj in Hlo; [| by apply N.mod_lt | by apply N.mod_lt].
  assert (Heq : Byte.to_N b = Byte.to_N b').
  { rewrite (N.div_mod (Byte.to_N b) 16), (N.div_mod (Byte.to_N b') 16) by done.
    by rewrite Hhi, Hlo. }
  apply (f_equal Byte.of_N) in Heq. rewrite !Byte.of_to_N in Heq.
  by injection Heq.
Qed.

Lemma EncodeToString_inj (bs bs' : list Byte.byte) :
  EncodeToString bs = EncodeToString bs' → bs = bs'.
Proof.
  revert bs'. induction bs as [|b bs IH]; intros [|b' bs']; simpl; try done.
  intros [= H1 H2 Hrest]. f_equal.
  - apply hexByte_inj. unfold hexByte. by rewrite H1, H2.
  - by apply IH.
Qed.

Lemma EncodeToString_length (bs : list Byte.byte) :
  String.length (EncodeToString bs) = (2 * length bs)%nat.
Proof.
  induction bs as [|b bs IH]; [done |].
  change (EncodeToString (b :: bs))
    with (hexByte b +:+ EncodeToString bs).
  rewrite append_length, IH. simpl. lia.
Qed.

Lemma append_cancel_l (s a b : string) : s +:+ a = s +:+ b → a = b.
Proof.
  induction s as [|c s IH]; simpl; [done |]. intros [= Heq]. by apply IH.
Qed.

(** X9.  The log fields identify the span.  Hexadecimal encoding loses
    nothing: an identifier of n bytes is written with 2n characters and two
    identifiers with the same text are the same bytes.  Hence, under one
    project identifier, the loggers of two requests with valid spans have
    the same trace field only if the spans belong to the same trace, and the
    same span-id field only if they are the same span. *)
Theorem log_fields_identify_span (ctx1 ctx2 : Context) (p : Process) :
  let sc1 := SpanFromContext ctx1 in
  let sc2 := SpanFromContext ctx2 in
  let logger1 := (Memoized.newTraceAwareLogrusLogger ctx1 p).1 in
  let logger2 := (Memoized.newTraceAwareLogrusLogger ctx2 p).1 in
  IsValid sc1 = true →
  IsValid sc2 = true →
  (Data logger1 !! "logging.googleapis.com/trace"
   = Data logger2 !! "logging.googleapis.com/trace"
   ↔ traceID sc1 = traceID sc2)
  ∧ (Data logger1 !! "logging.googleapis.com/spanId"
     = Data logger2 !! "logging.googleapis.com/spanId"
     ↔ spanID sc1 = spanID sc2)
  ∧ String.length (TraceID.String (traceID sc1))
    = (2 * length (traceID sc1))%nat
  ∧ String.length (SpanID.String (spanID sc1))
    = (2 * length (spanID sc1))%nat.
Proof.
  intros sc1 sc2 logger1 logger2 Hv1 Hv2. subst sc1 sc2 logger1 logger2.
  rewrite !Memoized_logger_valid by done. simpl.
  fold traceField spanIdField.
  rewrite !traceFields_trace, !traceFields_spanId.
  split; [| split; [| split; apply EncodeToString_length]].
  - split; [| by intros ->].
    intros [= Heq]. apply EncodeToString_inj.
    eapply append_cancel_l, append_cancel_l, append_cancel_l. exact Heq.
  - split; [| by intros ->].
    intros [= Heq]. by apply EncodeToString_inj.
Qed.

Lemma log_fields_identify_span_witness :
  let other :=
    {| currentSpan :=
         Some {| traceID := sampleTraceID; spanID := replicate 8 Byte.x01;
                 traceFlags := 0; remote := false |} |} in
  Data (Memoized.newTraceAwareLogrusLogger tracedContext freshProcess).1
    !! "logging.googleapis.com/trace"
  = Data (Memoized.newTraceAwareLogrusLogger other freshProcess).1
      !! "logging.googleapis.com/trace"
  ∧ String.length (TraceID.String sampleTraceID) = 32%nat.
Proof.
  intros other.
  destruct (log_fields_identify_span tracedContext other freshProcess)
    as (Htrace & _ & Hlen & _); [reflexivity | reflexivity |].
  split; [by apply Htrace | exact Hlen].
Defined.

(** ** Problem details *)

(** X10.  [NewProblemDetail] reports no error.  The body is the document
    of the detail, with the members ["type"], ["title"], ["detail"],
    ["status"] in that order, and its member ["status"] is always the status
    of the detail.  The status line carries the same number exactly when
    that status is positive; for a detail whose status is zero or negative
    the status line reads 200.  The content type of the response is
    [application/json]: the value [application/problem+json] set first is
    replaced when the body is written.  No other header changes. *)
Theorem NewProblemDetail_response (r : Response) (d : ProblemDetail) :
  let r' := (NewProblemDetail r d).1 in
  (NewProblemDetail r d).2 = None
  ∧ statusLineCode r' = (if (0 <? Status d)%Z then Status d else 200%Z)
  ∧ (∃ members,
        body r' = Some (JObject members)
        ∧ members.*1 = ["type"; "title"; "detail"; "status"]
        ∧ (list_to_map members : gmap string JSON) !! "status"
          = Some (JNumber (Status d))
        ∧ (list_to_map members : gmap string JSON) !! "type"
          = Some (JString (Type_ d))
        ∧ (list_to_map members : gmap string JSON) !! "title"
          = Some (JString (Title d))
        ∧ (list_to_map members : gmap string JSON) !! "detail"
          = Some (JString (Detail d))
        ∧ ((list_to_map members : gmap string JSON) !! "status"
           = Some (JNumber (statusLineCode r'))
           ↔ (0 < Status d)%Z))
  ∧ header r' !! "Content-Type" = Some "application/json"
  ∧ ∀ key, key ≠ "Content-Type" → header r' !! key = header r !! key.
Proof.
  intros r'. subst r'.
  assert (Hline : statusLineCode (NewProblemDetail r d).1
                  = (if (0 <? Status d)%Z then Status d else 200%Z)).
  { unfold NewProblemDetail, SendJSON, SetStatus, Set_, statusLineCode,
      StatusCode, StatusOK. simpl.
    destruct (Status d =? 0)%Z eqn:H0; [| destruct (Status d <? 0)%Z eqn:Hneg];
      destruct (0 <? Status d)%Z eqn:Hpos; simpl; try done; lia. }
  split; [done |]. split; [exact Hline |]. split.
  { exists [("type", JString (Type_ d)); ("title", JString (Title d));
            ("detail", JString (Detail d)); ("status", JNumber (Status d))].
    split; [done |]. split; [done |]. split; [done |].
    split; [done |]. split; [done |]. split; [done |].
    rewrite Hline.
    change ((list_to_map
               [("type", JString (Type_ d)); ("title", JString (Title d));
                ("detail", JString (Detail d));
                ("status", JNumber (Status d))] : gmap string JSON)
              !! "status")
      with (Some (JNumber (Status d))).
    destruct (0 <? Status d)%Z eqn:Hpos.
    - split; [intros _; lia | done].
    - split; [intros [= Heq]; by rewrite Heq in Hpos | lia]. }
  unfold NewProblemDetail, SendJSON, SetStatus, Set_, HeaderContentType,
    MIMEApplicationJSON. simpl.
  split; [by rewrite lookup_insert_eq |].
  intros key Hkey. by rewrite !lookup_insert_ne.
Qed.

Lemma NewProblemDetail_response_witness :
  let r := {| statusCode := 0; header := {[ "X-Request-Id" := "42" ]};
              body := None |} in
  let d := {| Type_ := "about:blank"; Title := "Not Found";
              Detail := "no such route"; Status := 404 |} in
  header (NewProblemDetail r d).1 !! "X-Request-Id" = Some "42"
  ∧ statusLineCode (NewProblemDetail r d).1 = 404%Z.
Proof.
  intros r d.
  destruct (NewProblemDetail_response r d) as (_ & Hs & _ & _ & Hrest).
  split; [| exact Hs].
  rewrite Hrest by done. reflexivity.
Defined.

(** ** A local run from start to stop *)

(** X11.  With the flag off and every constructor succeeding: after package
    initialisation the entry point returns; for a request whose user context
    carries a valid span, a handler behind the middleware gets from
    [GetLogger] a logger whose trace field is the ["local"] trace path of
    that span; the installed policy samples every span; no request went to
    the metadata service; and if the provider's teardown succeeds,
    [SafeShutdown] of the shutdown function's result returns. *)
Theorem local_run (w : World) (ctx sctx : Context) (name : string)
    (c : Ctx) (next : Ctx → M (option error)) (p0 : Process) :
  gcpTracingEnabled w = false →
  resourceNew w [WithAttributes_ServiceName name] = None →
  otlptracegrpcNew w = None →
  IsValid (SpanFromContext (UserContext c)) = true →
  let p1 := (Memoized.init w p0).2 in
  ∃ app sd tp c',
    Memoized.NewLogrusAndTraceAwareFiberApp w ctx name p1
    = (Returned (app, Some sd), installed p1 tp)
    ∧ metadataLookups (installed p1 tp) = metadataLookups p0
    ∧ sampler tp = AlwaysSample
    ∧ Memoized.newTraceAwareLogrusLoggerMiddleware c next (installed p1 tp)
      = next c' (installed p1 tp)
    ∧ Data (GetLogger c') !! "logging.googleapis.com/trace"
      = Some (VString
                ("projects/local/traces/"
                   +:+ TraceID.String
                         (traceID (SpanFromContext (UserContext c)))))
    ∧ (tracerProviderShutdown w tp sctx = None →
       SafeShutdown [sd sctx] = Returned tt).
Proof.
  intros Hoff Hres Hotlp Hv p1.
  destruct (init_resolves_once w p0) as (Hid & Hn & _).
  fold p1 in Hid, Hn. rewrite Hoff in Hid, Hn.
  destruct (Memoized_setup_outcome w ctx name p1)
    as [(cause & msg & Hin & _) | (_ & tp & Hr & _ & _ & Hs)].
  { unfold constructionSteps in Hin. rewrite Hoff, Hres, Hotlp in Hin.
    apply elem_of_cons in Hin as [Hin|Hin]; [done |].
    apply elem_of_cons in Hin as [Hin|Hin]; [done |].
    by apply elem_of_nil in Hin. }
  assert (Hrun : Memoized.NewLogrusAndTraceAwareFiberApp w ctx name p1
                 = (Returned
                      ({| handlers := [fiberlogrus_New; otelfiber_Middleware;
                                       traceAwareLogrusLoggerMiddleware] |},
                       Some (shutdown w tp)),
                    installed p1 tp)).
  { unfold Memoized.NewLogrusAndTraceAwareFiberApp. run_state.
    by rewrite Hr. }
  rewrite Hoff in Hs.
  destruct (middleware_then_GetLogger c next (installed p1 tp))
    as (c' & Hmw & Hlog & _).
  eexists _, (shutdown w tp), tp, c'.
  split; [exact Hrun |].
  split; [simpl; lia |].
  split; [exact Hs |].
  split; [exact Hmw |].
  split.
  - rewrite Hlog, Memoized_logger_valid by done. simpl.
    fold traceField. rewrite traceFields_trace. by rewrite Hid.
  - intros Hdown. unfold SafeShutdown, Join, shutdown. by rewrite Hdown.
Qed.

Lemma local_run_witness :
  ∃ c',
    Memoized.newTraceAwareLogrusLoggerMiddleware
      {| userContext := tracedContext; locals := ∅ |} (λ _, mret None)
      (installed (Memoized.init localWorld freshProcess).2 localProvider)
    = (None, installed (Memoized.init localWorld freshProcess).2 localProvider)
    ∧ Data (GetLogger c') !! "logging.googleapis.com/trace"
      = Some (VString "projects/local/traces/4bf92f3577b34da6a3ce929d0e0e4736").
Proof.
  destruct (local_run localWorld Background Background "svc"
              {| userContext := tracedContext; locals := ∅ |}
              (λ _, mret None) freshProcess)
    as (app & sd & tp & c' & _ & _ & _ & _ & Hlog & _);
    [reflexivity | reflexivity | reflexivity | reflexivity |].
  exists c'. split; [reflexivity | exact Hlog].
Defined.
